(** * A shallow embedding of the trading back-tester

    The development follows the two Python modules of the repository:
    [position_size.py] (the fee model, the candidate sort and the three
    position sizers) and [backtester.py] (the day loop with its cash ledger,
    holdings and trade ledger).

    Numbers.  Python's [int] and [float] values are modelled by exact
    rationals ([Q]): sums, products and comparisons are the mathematical
    ones, [a // b] is the floor of the quotient and raises
    [ZeroDivisionError] on a zero divisor, and [round(x, 2)] rounds to the
    nearest hundredth, ties going to the even neighbour.  Equalities between
    amounts are therefore stated with [==] ([Qeq]).

    Exceptions.  A Python call either returns a value or raises; the
    embedding returns a [result].  Methods that mutate the back-tester object
    thread its state explicitly and keep the state reached when an exception
    is raised. *)

From Stdlib Require Import ZArith QArith Qround Qabs Qminmax Lqa Lia.
From Stdlib Require Import Morphisms.
From Stdlib Require Import List String Sorted Permutation.
Import ListNotations.

Local Open Scope Q_scope.

(* ================================================================= *)
(** ** Python primitives *)

Module Py.

Inductive exn : Type :=
| KeyError
| ZeroDivisionError
| ValueError (msg : string).

Inductive result (A : Type) : Type :=
| Ok (a : A)
| Raise (e : exn).
Arguments Ok {A} a.
Arguments Raise {A} e.

Definition bind {A B} (r : result A) (k : A -> result B) : result B :=
  match r with
  | Ok a => k a
  | Raise e => Raise e
  end.

(** [a // b] on numbers. *)
Definition floordiv (a b : Q) : result Z :=
  if Qeq_bool b 0 then Raise ZeroDivisionError else Ok (Qfloor (a / b)).

(** Nearest integer, ties to even: what [round] does at a tie. *)
Definition round_half_even (y : Q) : Z :=
  let f := Qfloor y in
  match Qcompare (y - inject_Z f) (1 # 2) with
  | Lt => f
  | Gt => (f + 1)%Z
  | Eq => if Z.even f then f else (f + 1)%Z
  end.

(** [round(x, 2)]. *)
Definition round2 (x : Q) : Q := inject_Z (round_half_even (x * 100)) / 100.

(** A [dict] with string keys: an association list in insertion order,
    every key bound at most once. *)
Definition dict (V : Type) : Type := list (string * V).

Fixpoint dict_get {V} (k : string) (d : dict V) : option V :=
  match d with
  | [] => None
  | (k', v) :: d' => if String.eqb k k' then Some v else dict_get k d'
  end.

(** [d[k]], raising [KeyError] on a missing key. *)
Definition getitem {V} (d : dict V) (k : string) : result V :=
  match dict_get k d with
  | Some v => Ok v
  | None => Raise KeyError
  end.

(** [d[k] = v]: an existing key keeps its place, a new one goes last. *)
Fixpoint dict_set {V} (k : string) (v : V) (d : dict V) : dict V :=
  match d with
  | [] => [(k, v)]
  | (k', v') :: d' =>
      if String.eqb k k' then (k, v) :: d' else (k', v') :: dict_set k v d'
  end.

(** [d.pop(k)] for a key that is present. *)
Fixpoint dict_pop {V} (k : string) (d : dict V) : dict V :=
  match d with
  | [] => []
  | (k', v') :: d' =>
      if String.eqb k k' then d' else (k', v') :: dict_pop k d'
  end.

Definition dict_keys {V} (d : dict V) : list string := map fst d.

(** [list.sort(key=...)] is a stable sort; [le x y] compares the keys. *)
Fixpoint insert_by {A} (le : A -> A -> bool) (x : A) (l : list A) : list A :=
  match l with
  | [] => [x]
  | y :: l' => if le x y then x :: l else y :: insert_by le x l'
  end.

Definition stable_sort {A} (le : A -> A -> bool) (l : list A) : list A :=
  fold_right (insert_by le) [] l.

End Py.

Import Py.

Notation "x <- r ;; k" := (Py.bind r (fun x => k))
  (at level 61, r at next level, right associativity).

(* ================================================================= *)
(** ** position_size.py *)

(** The two entry (and exit) types, ['long'] and ['short']. *)
Inductive EntryType : Type := long | short.

Definition entry_type_str (t : EntryType) : string :=
  match t with long => "long" | short => "short" end.

Module PositionSize.

(** A float that may be not-a-number. *)
Inductive pyfloat : Type :=
| NaN
| Num (q : Q).

(** A purchase candidate.  [stop_loss] is what
    [candidate.get('stop_loss', None)] returns: [None] when the key is
    absent (or bound to [None]). *)
Record candidate : Type := mkCandidate {
  symbol : string;
  entry_type : EntryType;
  price : Q;
  stop_loss : option pyfloat;
}.

(** The dictionary built by [_define_symbol_to_buy]. *)
Record fill : Type := mkFill {
  f_symbol : string;
  f_entry_type : EntryType;
  shares_count : Z;
  f_price : Q;
  trx_value : Q;
  fee : Q;
}.

(** The attributes set by [PositionSize.__init__] and by the constructors
    of the subclasses ([capital_perc], [perc_risk]). *)
Record sizer : Type := mkSizer {
  fee_perc : Q;
  min_fee : Q;
  sort_type : string;
  capital_perc : Q;
  perc_risk : Q;
}.

(** The three concrete subclasses of [PositionSize]. *)
Inductive sizer_class : Type :=
| MaxFirstEncountered
| FixedCapitalPerc
| PercentageRisk.

Section Sizers.

(** [random.shuffle]: some rearrangement of the list, fixed here as a
    parameter of the model. *)
Variable shuffle : list candidate -> list candidate.

Variable self : sizer.

Definition calculate_fee (transaction_value : Q) : Q :=
  let fee := transaction_value * fee_perc self in
  let fee := if Qlt_le_dec fee (min_fee self) then min_fee self else fee in
  round2 fee.

Definition sort (candidates : list candidate) : list candidate :=
  if String.eqb (sort_type self) "alphabetically" then
    stable_sort (fun c1 c2 => String.leb (symbol c1) (symbol c2)) candidates
  else if String.eqb (sort_type self) "random" then
    shuffle candidates
  else if String.eqb (sort_type self) "cheapest" then
    stable_sort (fun c1 c2 => Qle_bool (price c1) (price c2)) candidates
  else if String.eqb (sort_type self) "expensive" then
    stable_sort (fun c1 c2 => Qle_bool (price c2) (price c1)) candidates
  else candidates.

Definition get_shares_count (money price : Q) : result Z :=
  floordiv money (price + price * fee_perc self).

Definition _define_symbol_to_buy (c : candidate) (shares_count : Z)
    (trx_value expected_fee : Q) : fill :=
  {| f_symbol := symbol c;
     f_entry_type := entry_type c;
     shares_count := shares_count;
     f_price := price c;
     trx_value := trx_value;
     fee := expected_fee |}.

(** *** MaxFirstEncountered *)

(** The [for] loop of [MaxFirstEncountered.decide_what_to_buy]. *)
Fixpoint mfe_loop (available_money_at_time : Q) (cs : list candidate)
    : result (list fill) :=
  match cs with
  | [] => Ok []
  | c :: rest =>
      shares <- get_shares_count available_money_at_time (price c) ;;
      if (shares =? 0)%Z then mfe_loop available_money_at_time rest
      else
        let trx_value := inject_Z shares * price c in
        let expected_fee := calculate_fee trx_value in
        Ok [_define_symbol_to_buy c shares trx_value expected_fee]
  end.

Definition MaxFirstEncountered_decide_what_to_buy
    (available_money_at_time : Q) (candidates : list candidate)
    : result (list fill) :=
  mfe_loop available_money_at_time (sort candidates).

(** *** FixedCapitalPerc *)

(** The [for] loop of [FixedCapitalPerc.decide_what_to_buy], on its two
    mutable locals [available_money_at_time] and [symbols_to_buy]. *)
Fixpoint fcp_loop (single_buy_limit : Q) (locals : Q * list fill)
    (cs : list candidate) : result (Q * list fill) :=
  match cs with
  | [] => Ok locals
  | c :: rest =>
      let (available_money_at_time, symbols_to_buy) := locals in
      shares <-
        (if Qlt_le_dec available_money_at_time single_buy_limit
         then get_shares_count available_money_at_time (price c)
         else get_shares_count single_buy_limit (price c)) ;;
      if (shares =? 0)%Z then fcp_loop single_buy_limit locals rest
      else
        let trx_value := inject_Z shares * price c in
        let expected_fee := calculate_fee trx_value in
        fcp_loop single_buy_limit
          (available_money_at_time - (trx_value + expected_fee),
           symbols_to_buy
             ++ [_define_symbol_to_buy c shares trx_value expected_fee])
          rest
  end.

Definition FixedCapitalPerc_decide_what_to_buy
    (available_money_at_time : Q) (candidates : list candidate)
    (capital : Q) : result (list fill) :=
  let single_buy_limit := round2 (capital * capital_perc self) in
  locals <-
    fcp_loop single_buy_limit (available_money_at_time, []) (sort candidates) ;;
  Ok (snd locals).

(** *** PercentageRisk *)

Definition no_stop_loss_msg (c : candidate) : string :=
  "Candidate (" ++ symbol c
  ++ ") does not have available stop loss. Cannot use PercentageRisk position sizer!".

Definition nan_stop_loss_msg (c : candidate) : string :=
  "Candidate (" ++ symbol c ++ ") has NaN as stop loss. It sohuld be a number!".

(** The two checks at the top of the loop body.  [not x] holds of [None]
    and of a zero number; NaN is truthy and is caught by [numpy.isnan]. *)
Definition check_stop_loss (c : candidate) : result Q :=
  match stop_loss c with
  | None => Raise (ValueError (no_stop_loss_msg c))
  | Some NaN => Raise (ValueError (nan_stop_loss_msg c))
  | Some (Num s) =>
      if Qeq_bool s 0 then Raise (ValueError (no_stop_loss_msg c)) else Ok s
  end.

(** The share count the loop body computes for one candidate. *)
Definition pr_shares (capital available_money_at_time : Q) (c : candidate)
    : result Z :=
  s <- check_stop_loss c ;;
  let value_at_risk_per_share := Qabs (price c - s) in
  let risk_per_transaction := round2 (capital * perc_risk self) in
  theoretical_shares_count <-
    floordiv risk_per_transaction value_at_risk_per_share ;;
  let theoretical_trx_value :=
    inject_Z theoretical_shares_count * price c in
  if Qlt_le_dec available_money_at_time theoretical_trx_value
  then get_shares_count available_money_at_time (price c)
  else get_shares_count theoretical_trx_value (price c).

(** The [for] loop of [PercentageRisk.decide_what_to_buy], on its two
    mutable locals. *)
Fixpoint pr_loop (capital : Q) (locals : Q * list fill)
    (cs : list candidate) : result (Q * list fill) :=
  match cs with
  | [] => Ok locals
  | c :: rest =>
      let (available_money_at_time, symbols_to_buy) := locals in
      shares <- pr_shares capital available_money_at_time c ;;
      if (shares =? 0)%Z then pr_loop capital locals rest
      else
        let real_trx_value := inject_Z shares * price c in
        let expected_fee := calculate_fee real_trx_value in
        pr_loop capital
          (available_money_at_time - (real_trx_value + expected_fee),
           symbols_to_buy
             ++ [_define_symbol_to_buy c shares real_trx_value expected_fee])
          rest
  end.

Definition PercentageRisk_decide_what_to_buy
    (available_money_at_time : Q) (candidates : list candidate)
    (capital : Q) : result (list fill) :=
  locals <- pr_loop capital (available_money_at_time, []) (sort candidates) ;;
  Ok (snd locals).

(** The abstract method [decide_what_to_buy], resolved by the class of the
    sizer. *)
Definition decide_what_to_buy (k : sizer_class)
    (available_money_at_time : Q) (candidates : list candidate)
    (capital : Q) : result (list fill) :=
  match k with
  | MaxFirstEncountered =>
      MaxFirstEncountered_decide_what_to_buy available_money_at_time candidates
  | FixedCapitalPerc =>
      FixedCapitalPerc_decide_what_to_buy available_money_at_time candidates
        capital
  | PercentageRisk =>
      PercentageRisk_decide_what_to_buy available_money_at_time candidates
        capital
  end.

End Sizers.

End PositionSize.


(* ================================================================= *)
(** ** backtester.py *)

Module Backtester.

(** A trading day: the text [str(ds)] of the [Timestamp], whose first ten
    characters are the calendar date; days are ordered as these texts are. *)
Definition Timestamp : Type := string.

(** The dictionary built by [_define_candidate]. *)
Record candidate : Type := mkCandidate {
  symbol : string;
  entry_type : EntryType;
  price : Q;
}.

(** An element of the list returned by [buying_decisions]. *)
Record fill : Type := mkFill {
  f_symbol : string;
  f_entry_type : EntryType;
  shares_count : Z;
  f_price : Q;
  trx_value : Q;
  fee : Q;
}.

(** A value of [_owned_shares]. *)
Record holding : Type := mkHolding {
  cnt : Z;
  trx_id : string;
}.

(** A value of [_trades]; the sell-side keys are absent until [_sell]
    merges them in. *)
Record trade : Type := mkTrade {
  buy_ds : Timestamp;
  type : EntryType;
  trx_value_no_fee : Q;
  trx_value_gross : Q;
  sell_ds : option Timestamp;
  sell_value_no_fee : option Q;
  sell_value_gross : option Q;
}.

(** The attributes set by [__init__]: [signals] maps a symbol to its columns,
    a column to its values by day. *)
Record backtester : Type := mkBacktester {
  signals : dict (dict (dict Q));
  price_label : string;
  init_capital : Q;
  fee_perc : Q;
  min_fee : Q;
}.

Definition init (signals : dict (dict (dict Q))) (price_label : string)
    (init_capital : Q) : backtester :=
  {| signals := signals;
     price_label := price_label;
     init_capital := init_capital;
     fee_perc := 38 # 10000;
     min_fee := 4 |}.

(** The attributes used during a run, those [_reset_backtest_state]
    assigns. *)
Record state : Type := mkState {
  _owned_shares : dict holding;
  _available_money : Q;
  _trades : dict trade;
  _account_value : dict Q;
  _net_account_value : dict Q;
  _rate_of_return : dict Q;
}.

(** A row of the valuation series returned by [run]. *)
Record row : Type := mkRow {
  row_ds : Timestamp;
  account_value : Q;
  nav : Q;
  rate_of_return : Q;
}.

(** A method that mutates the run attributes: from the state before to the
    outcome and the state after (the state reached, when it raises). *)
Definition M (A : Type) : Type := state -> result A * state.

Definition ret {A} (a : A) : M A := fun st => (Ok a, st).

Definition bindM {A B} (m : M A) (k : A -> M B) : M B :=
  fun st =>
    match m st with
    | (Ok a, st') => k a st'
    | (Raise e, st') => (Raise e, st')
    end.

Definition lift {A} (r : result A) : M A := fun st => (r, st).

Definition get : M state := fun st => (Ok st, st).

Definition modify (f : state -> state) : M unit := fun st => (Ok tt, f st).

Notation "x <~ m ;; k" := (bindM m (fun x => k))
  (at level 61, m at next level, right associativity).
Notation "m ;;; k" := (bindM m (fun _ => k))
  (at level 61, right associativity).

(** [for x in l: body(x)]. *)
Fixpoint for_each {A} (body : A -> M unit) (l : list A) : M unit :=
  match l with
  | [] => ret tt
  | x :: l' => body x ;;; for_each body l'
  end.

Definition set_owned_shares (d : dict holding) (st : state) : state :=
  {| _owned_shares := d;
     _available_money := _available_money st;
     _trades := _trades st;
     _account_value := _account_value st;
     _net_account_value := _net_account_value st;
     _rate_of_return := _rate_of_return st |}.

Definition set_available_money (m : Q) (st : state) : state :=
  {| _owned_shares := _owned_shares st;
     _available_money := m;
     _trades := _trades st;
     _account_value := _account_value st;
     _net_account_value := _net_account_value st;
     _rate_of_return := _rate_of_return st |}.

Definition set_trades (d : dict trade) (st : state) : state :=
  {| _owned_shares := _owned_shares st;
     _available_money := _available_money st;
     _trades := d;
     _account_value := _account_value st;
     _net_account_value := _net_account_value st;
     _rate_of_return := _rate_of_return st |}.

Definition set_account_value (d : dict Q) (st : state) : state :=
  {| _owned_shares := _owned_shares st;
     _available_money := _available_money st;
     _trades := _trades st;
     _account_value := d;
     _net_account_value := _net_account_value st;
     _rate_of_return := _rate_of_return st |}.

Definition set_net_account_value (d : dict Q) (st : state) : state :=
  {| _owned_shares := _owned_shares st;
     _available_money := _available_money st;
     _trades := _trades st;
     _account_value := _account_value st;
     _net_account_value := d;
     _rate_of_return := _rate_of_return st |}.

Definition set_rate_of_return (d : dict Q) (st : state) : state :=
  {| _owned_shares := _owned_shares st;
     _available_money := _available_money st;
     _trades := _trades st;
     _account_value := _account_value st;
     _net_account_value := _net_account_value st;
     _rate_of_return := d |}.

(** [t.update({'sell_ds': .., 'sell_value_no_fee': ..,
    'sell_value_gross': ..})] on a trade record. *)
Definition trade_update (t : trade) (ds : Timestamp) (no_fee gross : Q)
    : trade :=
  {| buy_ds := buy_ds t;
     type := type t;
     trx_value_no_fee := trx_value_no_fee t;
     trx_value_gross := trx_value_gross t;
     sell_ds := Some ds;
     sell_value_no_fee := Some no_fee;
     sell_value_gross := Some gross |}.

Section Methods.

Variable self : backtester.

Definition calculate_fee (transaction_value : Q) : Q :=
  let fee := transaction_value * fee_perc self in
  let fee := if Qlt_le_dec fee (min_fee self) then min_fee self else fee in
  round2 fee.

(** The [for] loop of [buying_decisions], on its two mutable locals
    [available_money_at_time] and [symbols_to_buy]. *)
Fixpoint buying_loop (locals : Q * list fill)
    (purchease_candidates : list candidate) : result (Q * list fill) :=
  match purchease_candidates with
  | [] => Ok locals
  | c :: rest =>
      let (available_money_at_time, symbols_to_buy) := locals in
      let price := price c in
      shares_count <-
        floordiv available_money_at_time (price + price * fee_perc self) ;;
      if (shares_count =? 0)%Z then buying_loop locals rest
      else
        let trx_value := inject_Z shares_count * price in
        let expected_fee := calculate_fee trx_value in
        buying_loop
          (available_money_at_time - (trx_value + expected_fee),
           symbols_to_buy
             ++ [{| f_symbol := symbol c;
                    f_entry_type := entry_type c;
                    shares_count := shares_count;
                    f_price := price;
                    trx_value := trx_value;
                    fee := expected_fee |}])
          rest
  end.

Definition buying_decisions (purchease_candidates : list candidate)
    : M (list fill) :=
  st <~ get ;;
  lift (locals <- buying_loop (_available_money st * 1, []) purchease_candidates ;;
        Ok (snd locals)).

Definition _reset_backtest_state : M unit :=
  modify (fun _ =>
    {| _owned_shares := [];
       _available_money := init_capital self;
       _trades := [];
       _account_value := [];
       _net_account_value := [];
       _rate_of_return := [] |}).

Definition _sell (symbol : string) (exit_type : EntryType) (prices : dict Q)
    (ds : Timestamp) : M unit :=
  price <~ lift (getitem prices ds) ;;
  st <~ get ;;
  h <~ lift (getitem (_owned_shares st) symbol) ;;
  let shares_count := inject_Z (cnt h) in
  let fee := calculate_fee (shares_count * price) in
  let trx_value := shares_count * price in
  let trx_value_gross :=
    match exit_type with
    | long => trx_value - fee
    | short => trx_value + fee
    end in
  modify (fun st =>
    set_available_money (_available_money st + trx_value_gross) st) ;;;
  st <~ get ;;
  t <~ lift (getitem (_trades st) (trx_id h)) ;;
  modify (fun st =>
    set_trades
      (dict_set (trx_id h) (trade_update t ds trx_value trx_value_gross)
         (_trades st)) st) ;;;
  modify (fun st => set_owned_shares (dict_pop symbol (_owned_shares st)) st).

Definition _buy (trx : fill) (ds : Timestamp) : M unit :=
  let trx_id :=
    (substring 0 10 ds ++ "_" ++ f_symbol trx ++ "_"
       ++ entry_type_str (f_entry_type trx))%string in
  let trx_value_gross :=
    match f_entry_type trx with
    | long => trx_value trx + fee trx
    | short => trx_value trx - fee trx
    end in
  modify (fun st =>
    match f_entry_type trx with
    | long =>
        set_available_money (_available_money st - trx_value_gross)
          (set_owned_shares
             (dict_set (f_symbol trx)
                {| cnt := shares_count trx; trx_id := trx_id |}
                (_owned_shares st)) st)
    | short =>
        set_available_money (_available_money st + trx_value_gross)
          (set_owned_shares
             (dict_set (f_symbol trx)
                {| cnt := - shares_count trx; trx_id := trx_id |}
                (_owned_shares st)) st)
    end) ;;;
  modify (fun st =>
    set_trades
      (dict_set trx_id
         {| buy_ds := ds;
            type := f_entry_type trx;
            trx_value_no_fee := trx_value trx;
            trx_value_gross := trx_value_gross;
            sell_ds := None;
            sell_value_no_fee := None;
            sell_value_gross := None |}
         (_trades st)) st).

(** [self.signals[symbol][column][ds]]. *)
Definition signal (symbol column : string) (ds : Timestamp) : result Q :=
  sym_v <- getitem (signals self) symbol ;;
  col <- getitem sym_v column ;;
  getitem col ds.

Definition _define_candidate (symbol : string) (ds : Timestamp)
    (entry_type : EntryType) : result candidate :=
  p <- signal symbol (price_label self) ds ;;
  Ok {| symbol := symbol; entry_type := entry_type; price := p |}.

(** The loop of [_summarize_day] that adds up the holdings' values. *)
Fixpoint holdings_value (ds : Timestamp) (items : list (string * holding))
    (account_value : Q) : result Q :=
  match items with
  | [] => Ok account_value
  | (symbol, vals) :: rest =>
      p <- signal symbol (price_label self) ds ;;
      holdings_value ds rest (account_value + inject_Z (cnt vals) * p)
  end.

Definition _summarize_day (ds : Timestamp) : M unit :=
  st <~ get ;;
  account_value <~ lift (holdings_value ds (_owned_shares st) 0) ;;
  let nav := account_value + _available_money st in
  modify (fun st =>
    set_account_value (dict_set ds account_value (_account_value st)) st) ;;;
  modify (fun st =>
    set_net_account_value (dict_set ds nav (_net_account_value st)) st) ;;;
  (if Qeq_bool (init_capital self) 0 then lift (Raise ZeroDivisionError)
   else
     modify (fun st =>
       set_rate_of_return
         (dict_set ds (((nav - init_capital self) / init_capital self) * 100)
            (_rate_of_return st)) st)).

(** The first loop of [run]: the symbols that have data on each day, in the
    order of [self.signals.items()]. *)
Fixpoint add_days (sym_n : string) (dss : list Timestamp)
    (symbols_in_day : dict (list string)) : dict (list string) :=
  match dss with
  | [] => symbols_in_day
  | ds :: rest =>
      add_days sym_n rest
        (match dict_get ds symbols_in_day with
         | Some l => dict_set ds (l ++ [sym_n]) symbols_in_day
         | None => dict_set ds [sym_n] symbols_in_day
         end)
  end.

Fixpoint collect_days (items : list (string * dict (dict Q)))
    (symbols_in_day : dict (list string)) : result (dict (list string)) :=
  match items with
  | [] => Ok symbols_in_day
  | (sym_n, sym_v) :: rest =>
      col <- getitem sym_v (price_label self) ;;
      collect_days rest (add_days sym_n (dict_keys col) symbols_in_day)
  end.

(** [days[:test_days]]. *)
Definition slice_to {A} (test_days : Z) (days : list A) : list A :=
  if (0 <=? test_days)%Z then firstn (Z.to_nat test_days) days
  else firstn (List.length days - Z.to_nat (- test_days)) days.

(** [self.signals[symbol][self.price_label]], the argument of [_sell]. *)
Definition prices_of (symbol : string) : result (dict Q) :=
  sym_v <- getitem (signals self) symbol ;;
  getitem sym_v (price_label self).

(** The body of the exit loop of [run], for one held symbol. *)
Definition exit_check (ds : Timestamp) (symbol : string) : M unit :=
  exit_long <~ lift (signal symbol "exit_long" ds) ;;
  if Qeq_bool exit_long 1 then
    prices <~ lift (prices_of symbol) ;;
    _sell symbol long prices ds
  else
    exit_short <~ lift (signal symbol "exit_short" ds) ;;
    if Qeq_bool exit_short 1 then
      prices <~ lift (prices_of symbol) ;;
      _sell symbol short prices ds
    else ret tt.

(** The candidate loop of [run]. *)
Fixpoint collect_candidates (ds : Timestamp) (syms : list string)
    (purchease_candidates : list candidate) : result (list candidate) :=
  match syms with
  | [] => Ok purchease_candidates
  | sym :: rest =>
      entry_long <- signal sym "entry_long" ds ;;
      if Qeq_bool entry_long 1 then
        c <- _define_candidate sym ds long ;;
        collect_candidates ds rest (purchease_candidates ++ [c])
      else
        entry_short <- signal sym "entry_short" ds ;;
        if Qeq_bool entry_short 1 then
          c <- _define_candidate sym ds short ;;
          collect_candidates ds rest (purchease_candidates ++ [c])
        else collect_candidates ds rest purchease_candidates
  end.

(** The body of the day loop of [run]. *)
Definition day (symbols_in_day : dict (list string)) (ds : Timestamp)
    : M unit :=
  st <~ get ;;
  let owned_shares := dict_keys (_owned_shares st) in
  for_each (exit_check ds) owned_shares ;;;
  syms <~ lift (getitem symbols_in_day ds) ;;
  purchease_candidates <~ lift (collect_candidates ds syms []) ;;
  symbols_to_buy <~ buying_decisions purchease_candidates ;;
  for_each (fun trx_details => _buy trx_details ds) symbols_to_buy ;;;
  _summarize_day ds.

(** [_run_output]: the three daily series side by side, a row per day. *)
Fixpoint rows (av nav ror : list (string * Q)) : list row :=
  match av, nav, ror with
  | (ds, a) :: av', (_, n) :: nav', (_, r) :: ror' =>
      {| row_ds := ds; account_value := a; nav := n; rate_of_return := r |}
        :: rows av' nav' ror'
  | _, _, _ => []
  end.

Definition _run_output (st : state) : list row :=
  rows (_account_value st) (_net_account_value st) (_rate_of_return st).

Definition run (test_days : option Z) : M (list row * dict trade) :=
  _reset_backtest_state ;;;
  symbols_in_day <~ lift (collect_days (signals self) []) ;;
  let days := stable_sort String.leb (dict_keys symbols_in_day) in
  let days :=
    match test_days with
    | None => days
    | Some n => if (n =? 0)%Z then days else slice_to n days
    end in
  for_each (day symbols_in_day) days ;;;
  st <~ get ;;
  ret (_run_output st, _trades st).

End Methods.

End Backtester.


(* ================================================================= *)
(** ** rules.py *)

Module Rules.

(** The exceptions of this module: [arr[-1]] on an empty array, and [min]
    or [max] of an empty sequence. *)
Inductive exn : Type :=
| IndexError
| ValueError.

Inductive outcome (A : Type) : Type :=
| Return (a : A)
| Raises (e : exn).
Arguments Return {A} a.
Arguments Raises {A} e.

Definition bind {A B} (r : outcome A) (k : A -> outcome B) : outcome B :=
  match r with
  | Return a => k a
  | Raises e => Raises e
  end.

Notation "x <-- r ;; k" := (bind r (fun x => k))
  (at level 61, r at next level, right associativity).

(** The built-in [min]: the first of the smallest items. *)
Fixpoint min_from (m : Q) (l : list Q) : Q :=
  match l with
  | [] => m
  | x :: l' => min_from (if Qlt_le_dec x m then x else m) l'
  end.

Definition py_min (l : list Q) : outcome Q :=
  match l with
  | [] => Raises ValueError
  | x :: l' => Return (min_from x l')
  end.

(** The built-in [max]: the first of the largest items. *)
Fixpoint max_from (m : Q) (l : list Q) : Q :=
  match l with
  | [] => m
  | x :: l' => max_from (if Qlt_le_dec m x then x else m) l'
  end.

Definition py_max (l : list Q) : outcome Q :=
  match l with
  | [] => Raises ValueError
  | x :: l' => Return (max_from x l')
  end.

(** [max] of an array of indexes. *)
Definition max_index (l : list nat) : outcome nat :=
  match l with
  | [] => Raises ValueError
  | i :: l' => Return (fold_left Nat.max l' i)
  end.

(** [list(enumerate(y))]. *)
Definition enumerate {A} (y : list A) : list (nat * A) :=
  combine (seq 0 (List.length y)) y.

(** [np.where(y[:i] < x)[0].size]: how many of the first [i] items of [y]
    are smaller than [x]. *)
Definition times_smaller (y : list Q) (i : nat) (x : Q) : nat :=
  List.length (filter (fun v => if Qlt_le_dec v x then true else false)
                 (firstn i y)).

(** [np.where(cond)[0]] on the list of counts: the indexes whose count
    satisfies [cond]. *)
Definition where_ (cond : nat -> bool) (counts : list nat) : list nat :=
  map fst (filter (fun ic => cond (snd ic)) (enumerate counts)).

(** [_find_support_resistance(y, e)]; [e] is an integer, [False] being 0. *)
Definition _find_support_resistance (y : list Q) (e : Z) : outcome (Q * Q) :=
  if ((e =? 0) || (Z.of_nat (List.length y) <? e))%Z%bool then
    support <-- py_min y ;;
    resistance <-- py_max y ;;
    Return (support, resistance)
  else
    let past_times_smaller_than_itself :=
      map (fun x => times_smaller y (fst x) (snd x)) (enumerate y) in
    let smaller_than_e_xtimes_idxs :=
      where_ (fun n => (Z.of_nat n <? e)%Z) past_times_smaller_than_itself in
    support_idx <-- max_index smaller_than_e_xtimes_idxs ;;
    let support := nth support_idx y 0 in
    let bigger_than_e_xtimes_idxs :=
      where_ (fun n => (e <? Z.of_nat n)%Z) past_times_smaller_than_itself in
    resistance_idx <-- max_index bigger_than_e_xtimes_idxs ;;
    let resistance := nth resistance_idx y 0 in
    Return (support, resistance).

(** [support_resistance(arr, e, b)]; [b] is a number, [False] being 0. *)
Definition support_resistance (arr : list Q) (e : Z) (b : Q) : outcome Z :=
  match arr with
  | [] => Raises IndexError
  | _ :: _ =>
      let price := last arr 0 in
      let y := removelast arr in
      sr <-- _find_support_resistance y e ;;
      let (support, resistance) := sr in
      if Qeq_bool b 0 then
        if Qlt_le_dec resistance price then Return 1%Z
        else if Qlt_le_dec price support then Return (-1)%Z
        else Return 0%Z
      else
        if Qlt_le_dec (resistance + resistance * b) price then Return 1%Z
        else if Qlt_le_dec price (support - support * b) then Return (-1)%Z
        else Return 0%Z
  end.

End Rules.


(* ================================================================= *)
(** ** The specification's wording, and the data of its scenarios *)

(** The fee model as the specification words it:
    [max(trx_value * fee_rate, min_fee)], rounded to two decimal places. *)
Definition fee_model (fee_perc min_fee trx_value : Q) : Q :=
  round2 (Qmax (trx_value * fee_perc) min_fee).

(** The properties the specification lists for a fee function [calc] under
    the configuration [fee_perc], [min_fee]; the floor is stated on the
    rounded minimum, which is the minimum itself when that is a whole number
    of hundredths. *)
Definition fee_properties (fee_perc min_fee : Q) (calc : Q -> Q) : Prop :=
  forall v : Q,
    calc v == fee_model fee_perc min_fee v
    /\ round2 min_fee <= calc v
    /\ (round2 min_fee == min_fee -> min_fee <= calc v)
    /\ (min_fee < round2 (v * fee_perc) -> calc v == round2 (v * fee_perc)).

(** The default configuration of a sizer: [fee_perc=0.0038], [min_fee=4]. *)
Definition default_sizer (sort_type : string) (capital_perc perc_risk : Q)
    : PositionSize.sizer :=
  {| PositionSize.fee_perc := 38 # 10000;
     PositionSize.min_fee := 4;
     PositionSize.sort_type := sort_type;
     PositionSize.capital_perc := capital_perc;
     PositionSize.perc_risk := perc_risk |}.


(** The cost of one share as the affordability check estimates it:
    [price + price * fee_perc]. *)
Definition unit_cost (self : PositionSize.sizer) (c : PositionSize.candidate)
    : Q :=
  PositionSize.price c + PositionSize.price c * PositionSize.fee_perc self.

(** The affordability formula, [floor(money / (price + price * fee_perc))]. *)
Definition whole_shares (self : PositionSize.sizer) (money : Q)
    (c : PositionSize.candidate) : Z :=
  Qfloor (money / unit_cost self c).

(** A candidate the sizers skip: the formula is defined and yields zero. *)
Definition unaffordable (self : PositionSize.sizer) (money : Q)
    (c : PositionSize.candidate) : Prop :=
  ~ unit_cost self c == 0 /\ whole_shares self money c = 0%Z.

(** The fill of a candidate with the whole-share quantity that [money]
    buys: [trx_value = shares * price], the fee from the fee model. *)
Definition max_fill (self : PositionSize.sizer) (money : Q)
    (c : PositionSize.candidate) : PositionSize.fill :=
  let shares := whole_shares self money c in
  let trx_value := inject_Z shares * PositionSize.price c in
  {| PositionSize.f_symbol := PositionSize.symbol c;
     PositionSize.f_entry_type := PositionSize.entry_type c;
     PositionSize.shares_count := shares;
     PositionSize.f_price := PositionSize.price c;
     PositionSize.trx_value := trx_value;
     PositionSize.fee := PositionSize.calculate_fee self trx_value |}.

(** The outcome of the loop of MaxFirstEncountered on a candidate list. *)
Definition mfe_outcome (self : PositionSize.sizer) (money : Q)
    (cs : list PositionSize.candidate)
    (r : result (list PositionSize.fill)) : Prop :=
  match r with
  | Ok [] => Forall (unaffordable self money) cs
  | Ok [f] =>
      exists pre c post,
        cs = pre ++ c :: post
        /\ Forall (unaffordable self money) pre
        /\ ~ unit_cost self c == 0
        /\ whole_shares self money c <> 0%Z
        /\ f = max_fill self money c
        /\ (0 <= money -> 0 < unit_cost self c ->
            (0 < PositionSize.shares_count f)%Z)
  | Ok (_ :: _ :: _) => False
  | Raise e =>
      e = ZeroDivisionError
      /\ exists pre c post,
           cs = pre ++ c :: post
           /\ Forall (unaffordable self money) pre
           /\ unit_cost self c == 0
  end.

(** FixedCapitalPercentage as the specification words it, for a per-trade
    [ceiling]: candidates in order, each sized from
    [min(remaining_cash, ceiling)], the spent amount deducted before the next
    candidate. *)
Inductive fcp_fills (self : PositionSize.sizer) (ceiling : Q)
    : Q -> list PositionSize.candidate -> list PositionSize.fill -> Prop :=
| fcp_done (cash : Q) : fcp_fills self ceiling cash [] []
| fcp_skip (cash : Q) c rest fs :
    unaffordable self (Qmin cash ceiling) c ->
    fcp_fills self ceiling cash rest fs ->
    fcp_fills self ceiling cash (c :: rest) fs
| fcp_take (cash : Q) c rest fs :
    ~ unit_cost self c == 0 ->
    whole_shares self (Qmin cash ceiling) c <> 0%Z ->
    fcp_fills self ceiling
      (cash - (PositionSize.trx_value (max_fill self (Qmin cash ceiling) c)
               + PositionSize.fee (max_fill self (Qmin cash ceiling) c)))
      rest fs ->
    fcp_fills self ceiling cash (c :: rest)
      (max_fill self (Qmin cash ceiling) c :: fs).

(** A stop loss that the checks of PercentageRisk reject: absent, NaN, or
    the number zero. *)
Definition rejected_stop_loss (c : PositionSize.candidate) : Prop :=
  PositionSize.stop_loss c = None
  \/ PositionSize.stop_loss c = Some PositionSize.NaN
  \/ exists s, PositionSize.stop_loss c = Some (PositionSize.Num s) /\ s == 0.

(** A stop loss that is missing or not a number, the specification's
    condition for the input error. *)
Definition missing_or_nan_stop_loss (c : PositionSize.candidate) : Prop :=
  PositionSize.stop_loss c = None
  \/ PositionSize.stop_loss c = Some PositionSize.NaN.

(** [random.shuffle] taken as the identity, for the concrete examples (none
    of them sorts at random). *)
Definition no_shuffle (l : list PositionSize.candidate) := l.

Definition cand (symbol : string) (t : EntryType) (price : Q)
    : PositionSize.candidate :=
  {| PositionSize.symbol := symbol;
     PositionSize.entry_type := t;
     PositionSize.price := price;
     PositionSize.stop_loss := None |}.

Definition cand_stop (symbol : string) (t : EntryType) (price stop : Q)
    : PositionSize.candidate :=
  {| PositionSize.symbol := symbol;
     PositionSize.entry_type := t;
     PositionSize.price := price;
     PositionSize.stop_loss := Some (PositionSize.Num stop) |}.

(** The state of a back-tester that holds nothing. *)
Definition empty_state : Backtester.state :=
  {| Backtester._owned_shares := [];
     Backtester._available_money := 0;
     Backtester._trades := [];
     Backtester._account_value := [];
     Backtester._net_account_value := [];
     Backtester._rate_of_return := [] |}.

(** The signals of one symbol: its five columns over the given days. *)
Definition symbol_signals (days : list string)
    (close entry_long exit_long entry_short exit_short : list Q)
    : dict (dict Q) :=
  [("close", combine days close);
   ("entry_long", combine days entry_long);
   ("exit_long", combine days exit_long);
   ("entry_short", combine days entry_short);
   ("exit_short", combine days exit_short)]%string.

Definition four_days : list string :=
  ["2010-09-28 00:00:00"; "2010-09-29 00:00:00";
   "2010-09-30 00:00:00"; "2010-10-01 00:00:00"]%string.

(** [signals_test_sigs_1] of the repository's tests, the four-day scenario
    of the specification, with an initial capital of 500. *)
Definition scenario : Backtester.backtester :=
  Backtester.init
    [("TEST_SIGS_1"%string,
      symbol_signals four_days
        [100; 210; 90; 80] [1; 0; 0; 0] [0; 1; 0; 0] [0; 0; 1; 0] [0; 0; 0; 1])]
    "close" 500.

(** One symbol at 100 on two days: a short entry on the first day and an
    [exit_long] flag (no [exit_short] flag) on the second. *)
Definition short_then_exit_long : Backtester.backtester :=
  Backtester.init
    [("A"%string,
      symbol_signals ["2020-01-01 00:00:00"; "2020-01-02 00:00:00"]%string
        [100; 100] [0; 0] [0; 1] [1; 0] [0; 0])]
    "close" 500.


(** The state [_sell] leaves for a holding [h] of [symbol] sold at price
    [p] with the given exit type, [t] being the trade the holding refers
    to. *)
Definition after_sell (self : Backtester.backtester) (symbol : string)
    (ds : Backtester.Timestamp) (exit_type : EntryType)
    (h : Backtester.holding) (p : Q) (t : Backtester.trade)
    (st : Backtester.state) : Backtester.state :=
  let trx_value := inject_Z (Backtester.cnt h) * p in
  let fee := Backtester.calculate_fee self trx_value in
  let gross :=
    match exit_type with
    | long => trx_value - fee
    | short => trx_value + fee
    end in
  {| Backtester._owned_shares :=
       dict_pop symbol (Backtester._owned_shares st);
     Backtester._available_money := Backtester._available_money st + gross;
     Backtester._trades :=
       dict_set (Backtester.trx_id h)
         (Backtester.trade_update t ds trx_value gross)
         (Backtester._trades st);
     Backtester._account_value := Backtester._account_value st;
     Backtester._net_account_value := Backtester._net_account_value st;
     Backtester._rate_of_return := Backtester._rate_of_return st |}.



(** What a test compares of a fill: symbol, shares, value and fee. *)
Definition fill_summary (f : PositionSize.fill) : string * Z * Q * Q :=
  (PositionSize.f_symbol f, PositionSize.shares_count f,
   Qred (PositionSize.trx_value f), Qred (PositionSize.fee f)).

(** What the tests of the back-tester compare after [run(test_days=n)]:
    the cash, and the account value and NAV of the last day. *)
Definition run_summary (n : Z) : option (Q * Q * Q) :=
  match Backtester.run scenario (Some n) empty_state with
  | (Ok (series, _), st) =>
      match nth_error series (Z.to_nat (n - 1)) with
      | Some r =>
          Some (Qred (Backtester._available_money st),
                Qred (Backtester.account_value r), Qred (Backtester.nav r))
      | None => None
      end
  | (Raise _, _) => None
  end.

(** The fills of a sizer against its candidates: every fill answers one
    candidate, in the order of the candidates, those without a fill being
    passed over. *)
Inductive picked {A B : Type} (R : A -> B -> Prop)
    : list A -> list B -> Prop :=
| picked_nil : picked R [] []
| picked_skip a l fs : picked R l fs -> picked R (a :: l) fs
| picked_take a f l fs : R a f -> picked R l fs -> picked R (a :: l) (f :: fs).

(** A fill made for the candidate [c]: symbol, entry type and price are the
    candidate's, the share count is not zero, the value is
    [shares * price] and the fee is the fee model's on that value. *)
Definition fill_of (self : PositionSize.sizer) (c : PositionSize.candidate)
    (f : PositionSize.fill) : Prop :=
  PositionSize.shares_count f <> 0%Z
  /\ f = PositionSize._define_symbol_to_buy c (PositionSize.shares_count f)
           (inject_Z (PositionSize.shares_count f) * PositionSize.price c)
           (PositionSize.calculate_fee self
              (inject_Z (PositionSize.shares_count f) * PositionSize.price c)).

(** A fill made for the candidate [c] whose risk, the share count times
    the distance from the price to the stop loss, is within [budget]. *)
Definition risk_within (budget : Q) (c : PositionSize.candidate)
    (f : PositionSize.fill) : Prop :=
  PositionSize.f_symbol f = PositionSize.symbol c
  /\ exists s,
       PositionSize.stop_loss c = Some (PositionSize.Num s)
       /\ inject_Z (PositionSize.shares_count f)
            * Qabs (PositionSize.price c - s) <= budget.

(** The state [_reset_backtest_state] assigns. *)
Definition reset_state (self : Backtester.backtester) : Backtester.state :=
  {| Backtester._owned_shares := [];
     Backtester._available_money := Backtester.init_capital self;
     Backtester._trades := [];
     Backtester._account_value := [];
     Backtester._net_account_value := [];
     Backtester._rate_of_return := [] |}.

(** A method keeps the relation [R] between the state it finds and the
    state it leaves, whether it returns or raises. *)
Definition keeps (R : Backtester.state -> Backtester.state -> Prop)
    {A : Type} (m : Backtester.M A) : Prop :=
  forall st, R st (snd (m st)).

(** The three daily series are left as they were. *)
Definition same_snapshots (st st' : Backtester.state) : Prop :=
  Backtester._account_value st' = Backtester._account_value st
  /\ Backtester._net_account_value st' = Backtester._net_account_value st
  /\ Backtester._rate_of_return st' = Backtester._rate_of_return st.

(** Every trade identifier of the ledger is still in the ledger. *)
Definition trades_kept (st st' : Backtester.state) : Prop :=
  forall id, dict_get id (Backtester._trades st) <> None ->
             dict_get id (Backtester._trades st') <> None.

(** Some symbol of the signals has a price on the day [ds]. *)
Definition has_price (self : Backtester.backtester)
    (ds : Backtester.Timestamp) : Prop :=
  exists sym cols col,
    In (sym, cols) (Backtester.signals self)
    /\ dict_get (Backtester.price_label self) cols = Some col
    /\ In ds (dict_keys col).

(** The days [run] keeps of the calendar [days] for its [test_days]. *)
Definition simulated_days (test_days : option Z)
    (days : list Backtester.Timestamp) : list Backtester.Timestamp :=
  match test_days with
  | None => days
  | Some n => if (n =? 0)%Z then days else Backtester.slice_to n days
  end.

(** What a day does before its summary (the exit pass, the candidates,
    the sizing and the buys), followed by [k]. *)
Definition trading (self : Backtester.backtester)
    (symbols_in_day : dict (list string)) (ds : Backtester.Timestamp)
    (k : Backtester.M unit) : Backtester.M unit :=
  Backtester.bindM Backtester.get (fun st =>
    Backtester.bindM
      (Backtester.for_each (Backtester.exit_check self ds)
         (dict_keys (Backtester._owned_shares st)))
      (fun _ =>
         Backtester.bindM (Backtester.lift (getitem symbols_in_day ds))
           (fun syms =>
              Backtester.bindM
                (Backtester.lift (Backtester.collect_candidates self ds syms []))
                (fun cands =>
                   Backtester.bindM (Backtester.buying_decisions self cands)
                     (fun fills =>
                        Backtester.bindM
                          (Backtester.for_each
                             (fun trx => Backtester._buy trx ds) fills)
                          (fun _ => k)))))).

(** The state [_summarize_day] leaves when the holdings are worth
    [account_value]. *)
Definition after_summary (self : Backtester.backtester)
    (ds : Backtester.Timestamp) (account_value : Q) (st : Backtester.state)
    : Backtester.state :=
  let nav := account_value + Backtester._available_money st in
  {| Backtester._owned_shares := Backtester._owned_shares st;
     Backtester._available_money := Backtester._available_money st;
     Backtester._trades := Backtester._trades st;
     Backtester._account_value :=
       dict_set ds account_value (Backtester._account_value st);
     Backtester._net_account_value :=
       dict_set ds nav (Backtester._net_account_value st);
     Backtester._rate_of_return :=
       dict_set ds
         (((nav - Backtester.init_capital self) / Backtester.init_capital self)
          * 100)
         (Backtester._rate_of_return st) |}.

(** Two symbols whose days do not align: A has data on the first day only
    (a long entry at 100), B on the second day only. *)
Definition misaligned : Backtester.backtester :=
  Backtester.init
    [("A"%string,
      symbol_signals ["2020-01-01 00:00:00"]%string [100] [1] [0] [0] [0]);
     ("B"%string,
      symbol_signals ["2020-01-02 00:00:00"]%string [50] [0] [0] [0] [0])]
    "close" 500.

(** The candidate that the candidate pass of [run] makes for a symbol: the
    symbol's price of the day, long when [entry_long] is 1, short when
    [entry_long] is not 1 and [entry_short] is. *)
Definition candidate_of (self : Backtester.backtester)
    (ds : Backtester.Timestamp) (sym : string) (c : Backtester.candidate)
    : Prop :=
  Backtester.symbol c = sym
  /\ Backtester.signal self sym (Backtester.price_label self) ds
     = Ok (Backtester.price c)
  /\ exists el,
       Backtester.signal self sym "entry_long" ds = Ok el
       /\ (el == 1 /\ Backtester.entry_type c = long
           \/ ~ el == 1
              /\ Backtester.entry_type c = short
              /\ exists es,
                   Backtester.signal self sym "entry_short" ds = Ok es
                   /\ es == 1).

(** One symbol at 100 whose [entry_long] and [entry_short] are both 1. *)
Definition both_entries : Backtester.backtester :=
  Backtester.init
    [("A"%string,
      symbol_signals ["2020-01-01 00:00:00"]%string [100] [1] [0] [1] [0])]
    "close" 500.

(** The identifier [_buy] gives the trade of a fill bought on [ds]. *)
Definition trade_id (ds : Backtester.Timestamp) (trx : Backtester.fill)
    : string :=
  (substring 0 10 ds ++ "_" ++ Backtester.f_symbol trx ++ "_"
     ++ entry_type_str (Backtester.f_entry_type trx))%string.

(** The signed share count [_buy] records for a fill. *)
Definition held_count (trx : Backtester.fill) : Z :=
  match Backtester.f_entry_type trx with
  | long => Backtester.shares_count trx
  | short => (- Backtester.shares_count trx)%Z
  end.

(** What [_buy] adds to the cash for a fill. *)
Definition buy_cash (trx : Backtester.fill) : Q :=
  match Backtester.f_entry_type trx with
  | long => - (Backtester.trx_value trx + Backtester.fee trx)
  | short => Backtester.trx_value trx - Backtester.fee trx
  end.

(** What [_sell] adds to the cash for [count] shares sold at [p]. *)
Definition sell_cash (self : Backtester.backtester) (exit_type : EntryType)
    (count : Z) (p : Q) : Q :=
  match exit_type with
  | long => inject_Z count * p
            - Backtester.calculate_fee self (inject_Z count * p)
  | short => inject_Z count * p
             + Backtester.calculate_fee self (inject_Z count * p)
  end.

(** A fill that [buying_decisions] makes for the candidate [c]: symbol,
    entry type and price are the candidate's, the share count is not zero,
    the value is [shares * price] and the fee is [calculate_fee] of it. *)
Definition engine_fill_of (self : Backtester.backtester)
    (c : Backtester.candidate) (f : Backtester.fill) : Prop :=
  Backtester.shares_count f <> 0%Z
  /\ f = {| Backtester.f_symbol := Backtester.symbol c;
            Backtester.f_entry_type := Backtester.entry_type c;
            Backtester.shares_count := Backtester.shares_count f;
            Backtester.f_price := Backtester.price c;
            Backtester.trx_value :=
              inject_Z (Backtester.shares_count f) * Backtester.price c;
            Backtester.fee :=
              Backtester.calculate_fee self
                (inject_Z (Backtester.shares_count f) * Backtester.price c) |}.

(* ================================================================= *)
(** ** Rounding *)

Lemma round_half_even_lower (y : Q) : (Qfloor y <= round_half_even y)%Z.
Proof.
  unfold round_half_even.
  destruct (Qcompare (y - inject_Z (Qfloor y)) (1 # 2)); try lia.
  destruct (Z.even (Qfloor y)); lia.
Qed.

Lemma round_half_even_upper (y : Q) : (round_half_even y <= Qfloor y + 1)%Z.
Proof.
  unfold round_half_even.
  destruct (Qcompare (y - inject_Z (Qfloor y)) (1 # 2)); try lia.
  destruct (Z.even (Qfloor y)); lia.
Qed.

Lemma round_half_even_mono (x y : Q) :
  x <= y -> (round_half_even x <= round_half_even y)%Z.
Proof.
  intros Hxy.
  pose proof (Qfloor_resp_le _ _ Hxy) as Hfl.
  destruct (Z.eq_dec (Qfloor x) (Qfloor y)) as [Heq | Hne].
  - unfold round_half_even. rewrite <- Heq.
    destruct (Qcompare_spec (x - inject_Z (Qfloor x)) (1 # 2)) as [Hx | Hx | Hx];
      destruct (Qcompare_spec (y - inject_Z (Qfloor x)) (1 # 2)) as [Hy | Hy | Hy];
      try destruct (Z.even (Qfloor x)); try lia; exfalso; lra.
  - pose proof (round_half_even_upper x). pose proof (round_half_even_lower y).
    lia.
Qed.

Lemma round_half_even_below_int (y : Q) (k : Z) :
  y < inject_Z k -> (round_half_even y <= k)%Z.
Proof.
  intros Hy.
  pose proof (round_half_even_upper y) as Hup.
  assert (Qfloor y < k)%Z; [| lia].
  rewrite Zlt_Qlt. eapply Qle_lt_trans; [apply Qfloor_le | exact Hy].
Qed.

#[global] Instance round_half_even_comp :
  Proper (Qeq ==> eq) round_half_even.
Proof.
  intros x y Hxy. unfold round_half_even.
  rewrite (Qfloor_comp _ _ Hxy).
  assert (Hc : x - inject_Z (Qfloor y) == y - inject_Z (Qfloor y))
    by (rewrite Hxy; reflexivity).
  rewrite (Qcompare_comp _ _ Hc _ _ (Qeq_refl (1 # 2))). reflexivity.
Qed.

#[global] Instance round2_comp : Proper (Qeq ==> Qeq) round2.
Proof.
  intros x y Hxy. unfold round2.
  assert (H : x * 100 == y * 100) by (rewrite Hxy; reflexivity).
  rewrite (round_half_even_comp _ _ H). reflexivity.
Qed.

Lemma round2_mono (x y : Q) : x <= y -> round2 x <= round2 y.
Proof.
  intros Hxy. unfold round2.
  assert (H : x * 100 <= y * 100) by lra.
  apply round_half_even_mono in H. rewrite Zle_Qle in H.
  unfold Qdiv. apply Qmult_le_compat_r; [exact H | discriminate].
Qed.

(** A rounded amount that lies above [m] is not above the rounding of [m],
    as soon as the amount rounded was below [m]. *)
Lemma round2_squeeze (x m : Q) :
  x <= m -> m < round2 x -> round2 m == round2 x.
Proof.
  intros Hxm Hm.
  apply Qle_antisym; [| apply round2_mono; exact Hxm].
  unfold round2 in *.
  assert (Hk : m * 100 < inject_Z (round_half_even (x * 100))).
  { unfold Qdiv in Hm.
    apply (Qmult_lt_compat_r _ _ 100) in Hm; [| reflexivity].
    rewrite <- Qmult_assoc in Hm.
    setoid_replace (/ 100 * 100) with 1 in Hm by reflexivity.
    rewrite Qmult_1_r in Hm. exact Hm. }
  apply round_half_even_below_int in Hk. rewrite Zle_Qle in Hk.
  unfold Qdiv. apply Qmult_le_compat_r; [exact Hk | discriminate].
Qed.

(* ================================================================= *)
(** ** The fee model *)

Section FeeModel.

Variables fee_perc min_fee : Q.

(** The body shared by the two [calculate_fee] methods. *)
Let calc (v : Q) : Q :=
  round2 (if Qlt_le_dec (v * fee_perc) min_fee then min_fee else v * fee_perc).

Lemma calc_is_fee_model (v : Q) : calc v == fee_model fee_perc min_fee v.
Proof.
  unfold calc, fee_model.
  destruct (Qlt_le_dec (v * fee_perc) min_fee) as [Hlt | Hle].
  - rewrite Q.max_r by lra. reflexivity.
  - rewrite Q.max_l by lra. reflexivity.
Qed.

Lemma calc_fee_properties : fee_properties fee_perc min_fee calc.
Proof.
  intros v. split; [apply calc_is_fee_model |].
  assert (Hfloor : round2 min_fee <= calc v).
  { unfold calc. destruct (Qlt_le_dec (v * fee_perc) min_fee).
    - apply Qle_refl.
    - apply round2_mono. assumption. }
  split; [exact Hfloor |]. split.
  - intros Hcent. rewrite <- Hcent. exact Hfloor.
  - intros Habove. unfold calc.
    destruct (Qlt_le_dec (v * fee_perc) min_fee) as [Hlt | Hle].
    + apply round2_squeeze; [lra | exact Habove].
    + reflexivity.
Qed.

End FeeModel.



(* ================================================================= *)
(** ** The position sizers *)

Lemma floordiv_ok (a b : Q) (z : Z) :
  floordiv a b = Ok z <-> ~ b == 0 /\ z = Qfloor (a / b).
Proof.
  unfold floordiv. destruct (Qeq_bool b 0) eqn:Hb.
  - apply Qeq_bool_iff in Hb. split; [discriminate | tauto].
  - apply Qeq_bool_neq in Hb. split.
    + intros [= <-]. auto.
    + intros [_ ->]. reflexivity.
Qed.

Lemma floordiv_raise (a b : Q) (e : exn) :
  floordiv a b = Raise e <-> b == 0 /\ e = ZeroDivisionError.
Proof.
  unfold floordiv. destruct (Qeq_bool b 0) eqn:Hb.
  - apply Qeq_bool_iff in Hb. split.
    + intros [= <-]. auto.
    + intros [_ ->]. reflexivity.
  - apply Qeq_bool_neq in Hb. split; [discriminate | tauto].
Qed.

Lemma floordiv_comp (a a' b : Q) : a == a' -> floordiv a b = floordiv a' b.
Proof.
  intros Ha. unfold floordiv. destruct (Qeq_bool b 0); [reflexivity |].
  f_equal. apply Qfloor_comp. rewrite Ha. reflexivity.
Qed.

Lemma get_shares_count_cases (self : PositionSize.sizer) (money : Q)
    (c : PositionSize.candidate) :
  (unit_cost self c == 0
   /\ PositionSize.get_shares_count self money (PositionSize.price c)
      = Raise ZeroDivisionError)
  \/ (~ unit_cost self c == 0
      /\ PositionSize.get_shares_count self money (PositionSize.price c)
         = Ok (whole_shares self money c)).
Proof.
  unfold PositionSize.get_shares_count, whole_shares, floordiv.
  fold (unit_cost self c).
  destruct (Qeq_bool (unit_cost self c) 0) eqn:Hu.
  - left. apply Qeq_bool_iff in Hu. auto.
  - right. apply Qeq_bool_neq in Hu. auto.
Qed.

(** With money and unit cost not negative, the formula yields no negative
    quantity. *)
Lemma whole_shares_nonneg (self : PositionSize.sizer) (money : Q)
    (c : PositionSize.candidate) :
  0 <= money -> 0 < unit_cost self c -> (0 <= whole_shares self money c)%Z.
Proof.
  intros Hm Hu. unfold whole_shares.
  rewrite <- (Qfloor_Z 0). apply Qfloor_resp_le.
  apply Qle_shift_div_l; [exact Hu |].
  change (inject_Z 0) with 0. rewrite Qmult_0_l. exact Hm.
Qed.

(** The quantity bought costs, at the estimated unit cost, no more than the
    money it was sized from. *)
Lemma whole_shares_affordable (self : PositionSize.sizer) (money : Q)
    (c : PositionSize.candidate) :
  0 < unit_cost self c ->
  inject_Z (whole_shares self money c) * unit_cost self c <= money.
Proof.
  intros Hu. unfold whole_shares.
  pose proof (Qfloor_le (money / unit_cost self c)) as Hfl.
  apply (Qmult_le_compat_r _ _ (unit_cost self c)) in Hfl; [| lra].
  unfold Qdiv in Hfl. rewrite <- Qmult_assoc in Hfl.
  rewrite (Qmult_comm (/ unit_cost self c)) in Hfl.
  rewrite Qmult_inv_r in Hfl by lra. rewrite Qmult_1_r in Hfl. exact Hfl.
Qed.

Lemma mfe_loop_outcome (self : PositionSize.sizer) (money : Q)
    (cs : list PositionSize.candidate) :
  mfe_outcome self money cs (PositionSize.mfe_loop self money cs).
Proof.
  induction cs as [| c rest IH]; simpl.
  - constructor.
  - destruct (get_shares_count_cases self money c) as [[Hu ->] | [Hu ->]]; simpl.
    + split; [reflexivity |]. exists [], c, rest. repeat split; auto.
    + destruct (Z.eqb_spec (whole_shares self money c) 0) as [Hz | Hnz].
      * unfold mfe_outcome in *.
        destruct (PositionSize.mfe_loop self money rest) as [[| f [| g fs]] | e].
        -- constructor; [split; assumption | exact IH].
        -- destruct IH as (pre & c' & post & -> & Hpre & IH).
           exists (c :: pre), c', post. split; [reflexivity |].
           split; [constructor; [split; assumption | exact Hpre] | exact IH].
        -- exact IH.
        -- destruct IH as (-> & pre & c' & post & -> & Hpre & IH).
           split; [reflexivity |].
           exists (c :: pre), c', post. split; [reflexivity |].
           split; [constructor; [split; assumption | exact Hpre] | exact IH].
      * exists [], c, rest. repeat split; auto.
        simpl. intros Hm Hpos.
        pose proof (whole_shares_nonneg self money c Hm Hpos). lia.
Qed.



(** *** FixedCapitalPerc *)

Lemma get_shares_count_comp (self : PositionSize.sizer) (m m' p : Q) :
  m == m' ->
  PositionSize.get_shares_count self m p
  = PositionSize.get_shares_count self m' p.
Proof.
  intros H. unfold PositionSize.get_shares_count. apply floordiv_comp, H.
Qed.

Lemma whole_shares_comp (self : PositionSize.sizer) (m m' : Q)
    (c : PositionSize.candidate) :
  m == m' -> whole_shares self m c = whole_shares self m' c.
Proof.
  intros H. unfold whole_shares. apply Qfloor_comp. rewrite H. reflexivity.
Qed.

(** The branch on [available_money_at_time < single_buy_limit] sizes from
    the smaller of the two amounts. *)
Lemma fcp_branch_is_min (self : PositionSize.sizer) (limit m : Q)
    (c : PositionSize.candidate) :
  (if Qlt_le_dec m limit
   then PositionSize.get_shares_count self m (PositionSize.price c)
   else PositionSize.get_shares_count self limit (PositionSize.price c))
  = PositionSize.get_shares_count self (Qmin m limit) (PositionSize.price c).
Proof.
  destruct (Qlt_le_dec m limit) as [Hlt | Hle];
    apply get_shares_count_comp; symmetry.
  - apply Q.min_l. lra.
  - apply Q.min_r. exact Hle.
Qed.

Lemma fcp_loop_sound (self : PositionSize.sizer) (limit : Q)
    (cs : list PositionSize.candidate) :
  forall m acc m' out,
    PositionSize.fcp_loop self limit (m, acc) cs = Ok (m', out) ->
    exists fs, out = acc ++ fs /\ fcp_fills self limit m cs fs.
Proof.
  induction cs as [| c rest IH]; intros m acc m' out H; simpl in H.
  - injection H as <- <-. exists []. rewrite app_nil_r. split; constructor.
  - rewrite fcp_branch_is_min in H.
    destruct (get_shares_count_cases self (Qmin m limit) c)
      as [[Hu Hg] | [Hu Hg]]; rewrite Hg in H; simpl in H; [discriminate |].
    destruct (Z.eqb_spec (whole_shares self (Qmin m limit) c) 0) as [Hz | Hnz].
    + apply IH in H. destruct H as (fs & -> & Hfs).
      exists fs. split; [reflexivity |].
      apply fcp_skip; [split; assumption | exact Hfs].
    + apply IH in H. destruct H as (fs & -> & Hfs).
      exists (max_fill self (Qmin m limit) c :: fs).
      rewrite <- app_assoc. split; [reflexivity |].
      apply fcp_take; assumption.
Qed.




(** *** PercentageRisk *)

Lemma check_stop_loss_cases (c : PositionSize.candidate) :
  (rejected_stop_loss c
   /\ exists msg, PositionSize.check_stop_loss c = Raise (ValueError msg))
  \/ (exists s,
        PositionSize.stop_loss c = Some (PositionSize.Num s)
        /\ ~ s == 0
        /\ PositionSize.check_stop_loss c = Ok s).
Proof.
  unfold PositionSize.check_stop_loss, rejected_stop_loss.
  destruct (PositionSize.stop_loss c) as [[| s] |].
  - left. split; [auto | eexists; reflexivity].
  - destruct (Qeq_bool s 0) eqn:Hs.
    + apply Qeq_bool_iff in Hs. left. split; [| eexists; reflexivity].
      right. right. exists s. auto.
    + apply Qeq_bool_neq in Hs. right. exists s. auto.
  - left. split; [auto | eexists; reflexivity].
Qed.

Lemma rejected_not_checked (c : PositionSize.candidate) (s : Q) :
  rejected_stop_loss c -> PositionSize.check_stop_loss c = Ok s -> False.
Proof.
  unfold PositionSize.check_stop_loss.
  intros [-> | [-> | (s' & -> & Hs')]]; try discriminate.
  apply Qeq_bool_iff in Hs'. rewrite Hs'. discriminate.
Qed.

(** Past the stop-loss checks, the share count of a candidate either is
    computed or fails on a division by zero. *)
Lemma pr_shares_checked (self : PositionSize.sizer) (capital m : Q)
    (c : PositionSize.candidate) (s : Q) :
  PositionSize.check_stop_loss c = Ok s ->
  (Qabs (PositionSize.price c - s) == 0
   /\ PositionSize.pr_shares self capital m c = Raise ZeroDivisionError)
  \/ (~ Qabs (PositionSize.price c - s) == 0
      /\ (PositionSize.pr_shares self capital m c = Raise ZeroDivisionError
          \/ exists n, PositionSize.pr_shares self capital m c = Ok n)).
Proof.
  intros Hs. unfold PositionSize.pr_shares. rewrite Hs. cbn [bind].
  destruct (Qeq_dec (Qabs (PositionSize.price c - s)) 0) as [Hr | Hr].
  - left. split; [exact Hr |].
    rewrite (proj2 (floordiv_raise _ _ _) (conj Hr eq_refl)). reflexivity.
  - right. split; [exact Hr |].
    rewrite (proj2 (floordiv_ok _ _ _) (conj Hr eq_refl)). cbn [bind].
    match goal with
    | |- context [Qlt_le_dec ?a ?b] => destruct (Qlt_le_dec a b)
    end;
      match goal with
      | |- context [PositionSize.get_shares_count self ?mm _] =>
          destruct (get_shares_count_cases self mm c) as [[_ ->] | [_ ->]]
      end; eauto.
Qed.

Lemma pr_shares_value_error (self : PositionSize.sizer) (capital m : Q)
    (c : PositionSize.candidate) :
  (exists msg, PositionSize.pr_shares self capital m c = Raise (ValueError msg))
  <-> rejected_stop_loss c.
Proof.
  destruct (check_stop_loss_cases c) as [[Hrej [msg Hmsg]] | (s & Hsl & Hs & Hok)].
  - split; [auto |]. intros _. exists msg.
    unfold PositionSize.pr_shares. rewrite Hmsg. reflexivity.
  - split.
    + intros [msg Hmsg].
      destruct (pr_shares_checked self capital m c s Hok)
        as [[_ H] | [_ [H | [n H]]]]; rewrite H in Hmsg; discriminate.
    + intros Hrej. exfalso. eapply rejected_not_checked; eassumption.
Qed.

Lemma pr_loop_app (self : PositionSize.sizer) (capital : Q)
    (pre post : list PositionSize.candidate) :
  forall locals,
    PositionSize.pr_loop self capital locals (pre ++ post)
    = (l <- PositionSize.pr_loop self capital locals pre ;;
       PositionSize.pr_loop self capital l post).
Proof.
  induction pre as [| c pre IH]; intros [m acc]; simpl; [reflexivity |].
  destruct (PositionSize.pr_shares self capital m c) as [n | e]; simpl;
    [| reflexivity].
  destruct (n =? 0)%Z; apply IH.
Qed.

Lemma pr_loop_value_error (self : PositionSize.sizer) (capital : Q)
    (cs : list PositionSize.candidate) :
  forall locals msg,
    PositionSize.pr_loop self capital locals cs = Raise (ValueError msg) ->
    exists pre c post locals',
      cs = pre ++ c :: post
      /\ PositionSize.pr_loop self capital locals pre = Ok locals'
      /\ rejected_stop_loss c.
Proof.
  induction cs as [| c rest IH]; intros [m acc] msg H; simpl in H;
    [discriminate |].
  destruct (PositionSize.pr_shares self capital m c) as [n | e] eqn:Hn;
    simpl in H.
  - assert (Hstep : exists l1,
               PositionSize.pr_loop self capital (m, acc) [c] = Ok l1
               /\ PositionSize.pr_loop self capital l1 rest
                  = Raise (ValueError msg)).
    { simpl. rewrite Hn. simpl. destruct (n =? 0)%Z; eauto. }
    destruct Hstep as (l1 & Hc & Hrest).
    apply IH in Hrest. destruct Hrest as (pre & c' & post & l' & -> & Hpre & Hrej).
    exists (c :: pre), c', post, l'. split; [reflexivity |]. split; [| exact Hrej].
    change (c :: pre) with ([c] ++ pre). rewrite pr_loop_app, Hc. exact Hpre.
  - injection H as ->.
    exists [], c, rest, (m, acc). split; [reflexivity |]. split; [reflexivity |].
    apply (pr_shares_value_error self capital m c). eauto.
Qed.

(** C7 (as amended).  PercentageRisk raises the input error ([ValueError])
    if and only if some candidate reached in sort order (every candidate
    before it was processed without an exception) has a stop loss that is
    missing, NaN or zero; the error is the outcome of the call, so no fill
    list is returned. *)
Theorem PercentageRisk_input_error :
  forall (shuffle : list PositionSize.candidate -> list PositionSize.candidate)
         (self : PositionSize.sizer) (money capital : Q)
         (candidates : list PositionSize.candidate),
    (exists msg,
       PositionSize.PercentageRisk_decide_what_to_buy shuffle self money
         candidates capital = Raise (ValueError msg))
    <-> (exists pre c post locals,
           PositionSize.sort shuffle self candidates = pre ++ c :: post
           /\ PositionSize.pr_loop self capital (money, []) pre = Ok locals
           /\ rejected_stop_loss c).
Proof.
  intros. unfold PositionSize.PercentageRisk_decide_what_to_buy. split.
  - intros [msg H].
    destruct (PositionSize.pr_loop _ _ _ _) as [l | e] eqn:Hl; simpl in H;
      [discriminate |].
    injection H as ->. eapply pr_loop_value_error. exact Hl.
  - intros (pre & c & post & [m acc] & -> & Hpre & Hrej).
    rewrite pr_loop_app, Hpre. simpl.
    apply (pr_shares_value_error self capital m c) in Hrej.
    destruct Hrej as [msg ->]. exists msg. reflexivity.
Qed.

(** C7, the claim as stated fails: a stop loss of 0 is a number, neither
    missing nor NaN, and the input error is raised all the same. *)
Lemma PercentageRisk_zero_stop_loss :
  let self := default_sizer "alphabetically" (1 # 10) (1 # 100) in
  let candidates := [cand_stop "A" long 100 0] in
  PositionSize.PercentageRisk_decide_what_to_buy no_shuffle self 1000
    candidates 10000
  = Raise (ValueError (PositionSize.no_stop_loss_msg (cand_stop "A" long 100 0)))
  /\ Forall (fun c => ~ missing_or_nan_stop_loss c)
       (PositionSize.sort no_shuffle self candidates).
Proof.
  cbv zeta. split; [reflexivity |].
  change (PositionSize.sort no_shuffle
            (default_sizer "alphabetically" (1 # 10) (1 # 100))
            [cand_stop "A" long 100 0])
    with [cand_stop "A" long 100 0].
  constructor; [| constructor].
  intros [H | H]; discriminate H.
Qed.

Lemma pr_loop_ok_step (self : PositionSize.sizer) (capital : Q)
    (c : PositionSize.candidate) (rest : list PositionSize.candidate) :
  forall m acc l,
    PositionSize.pr_loop self capital (m, acc) (c :: rest) = Ok l ->
    exists n l1,
      PositionSize.pr_shares self capital m c = Ok n
      /\ PositionSize.pr_loop self capital l1 rest = Ok l
      /\ (l1 = (m, acc) /\ n = 0%Z
          \/ n <> 0%Z
             /\ l1 = (m - (inject_Z n * PositionSize.price c
                           + PositionSize.calculate_fee self
                               (inject_Z n * PositionSize.price c)),
                      acc ++ [PositionSize._define_symbol_to_buy c n
                                (inject_Z n * PositionSize.price c)
                                (PositionSize.calculate_fee self
                                   (inject_Z n * PositionSize.price c))])).
Proof.
  intros m acc l H. simpl in H.
  destruct (PositionSize.pr_shares self capital m c) as [n | e]; simpl in H;
    [| discriminate].
  exists n. destruct (Z.eqb_spec n 0) as [Hz | Hnz]; eauto 10.
Qed.




(** *** No fill of zero shares *)

Lemma fcp_fills_nonzero (self : PositionSize.sizer) (ceiling cash : Q)
    (cs : list PositionSize.candidate) (fs : list PositionSize.fill) :
  fcp_fills self ceiling cash cs fs ->
  Forall (fun f => PositionSize.shares_count f <> 0%Z) fs.
Proof.
  induction 1; [constructor | assumption |].
  constructor; assumption.
Qed.

Lemma pr_loop_nonzero (self : PositionSize.sizer) (capital : Q)
    (cs : list PositionSize.candidate) :
  forall m acc l,
    PositionSize.pr_loop self capital (m, acc) cs = Ok l ->
    Forall (fun f => PositionSize.shares_count f <> 0%Z) acc ->
    Forall (fun f => PositionSize.shares_count f <> 0%Z) (snd l).
Proof.
  induction cs as [| c rest IH]; intros m acc l H Hacc.
  - injection H as <-. exact Hacc.
  - apply pr_loop_ok_step in H.
    destruct H as (n & l1 & _ & Hrest & [[-> _] | [Hnz ->]]).
    + eapply IH; eassumption.
    + eapply IH; [exact Hrest |].
      apply Forall_app. split; [exact Hacc |].
      constructor; [exact Hnz | constructor].
Qed.

(** C8 (as amended).  Whatever the input, a fill list returned by any of the
    three sizers holds no fill with [shares_count = 0]: a candidate whose
    computed share count is zero is skipped. *)
Theorem sizers_return_no_zero_fill :
  forall (shuffle : list PositionSize.candidate -> list PositionSize.candidate)
         (self : PositionSize.sizer) (k : PositionSize.sizer_class)
         (money capital : Q) (candidates : list PositionSize.candidate)
         (fs : list PositionSize.fill),
    PositionSize.decide_what_to_buy shuffle self k money candidates capital
      = Ok fs ->
    Forall (fun f => PositionSize.shares_count f <> 0%Z) fs.
Proof.
  intros shuffle self k money capital candidates fs H.
  destruct k; simpl in H.
  - unfold PositionSize.MaxFirstEncountered_decide_what_to_buy in H.
    pose proof (mfe_loop_outcome self money
                  (PositionSize.sort shuffle self candidates)) as Hout.
    rewrite H in Hout. destruct fs as [| f [| g fs]]; simpl in Hout.
    + constructor.
    + destruct Hout as (pre & c & post & _ & _ & _ & Hnz & -> & _).
      constructor; [exact Hnz | constructor].
    + contradiction.
  - unfold PositionSize.FixedCapitalPerc_decide_what_to_buy in H.
    destruct (PositionSize.fcp_loop _ _ _ _) as [[m' out] | e] eqn:Hl;
      simpl in H; [| discriminate].
    injection H as <-. apply fcp_loop_sound in Hl.
    destruct Hl as (fs' & -> & Hfs). eapply fcp_fills_nonzero. exact Hfs.
  - unfold PositionSize.PercentageRisk_decide_what_to_buy in H.
    destruct (PositionSize.pr_loop _ _ _ _) as [[m' out] | e] eqn:Hl;
      simpl in H; [| discriminate].
    injection H as <-.
    apply (pr_loop_nonzero _ _ _ _ _ _ Hl). constructor.
Qed.

(** C8 at a concrete input: the first test of the repository for
    FixedCapitalPerc (capital 10000, 10%, cash 5000, one candidate at 123). *)
Lemma sizers_return_no_zero_fill_witness :
  let self := default_sizer "alphabetically" (1 # 10) (1 # 100) in
  PositionSize.decide_what_to_buy no_shuffle self PositionSize.FixedCapitalPerc
    5000 [cand "c1" long 123] 10000
  = Ok [max_fill self 1000 (cand "c1" long 123)]
  /\ Forall (fun f => PositionSize.shares_count f <> 0%Z)
       [max_fill self 1000 (cand "c1" long 123)].
Proof.
  cbv zeta. split; [reflexivity |].
  apply (sizers_return_no_zero_fill no_shuffle
           (default_sizer "alphabetically" (1 # 10) (1 # 100))
           PositionSize.FixedCapitalPerc 5000 10000 [cand "c1" long 123]).
  reflexivity.
Defined.

(** C8, the claim as stated fails: from a cash balance of 101,
    FixedCapitalPerc buys one share of A at 100 with the floored fee 4, which
    leaves -3, and then returns a fill of -3 shares of B at 1. *)
Lemma FixedCapitalPerc_negative_fill :
  let self := default_sizer "alphabetically" (1 # 10) (1 # 100) in
  let fills :=
    [max_fill self 101 (cand "A" long 100);
     max_fill self (-3) (cand "B" long 1)] in
  PositionSize.decide_what_to_buy no_shuffle self PositionSize.FixedCapitalPerc
    101 [cand "A" long 100; cand "B" long 1] 100000
  = Ok fills
  /\ PositionSize.shares_count (max_fill self (-3) (cand "B" long 1)) = (-3)%Z
  /\ ~ Forall (fun f => (0 < PositionSize.shares_count f)%Z) fills.
Proof.
  cbv zeta. split; [reflexivity | split; [reflexivity |]].
  intros H. inversion H as [| f fs _ Hrest]; subst.
  inversion Hrest as [| g gs Hneg _]; subst.
  vm_compute in Hneg. discriminate.
Qed.

(* ================================================================= *)
(** ** The back-tester *)

(** C9.  [run] starts by resetting every attribute of the run (cash,
    holdings, trades, daily snapshots), so its outcome (valuation series and
    trade ledger, or the exception raised) and the state it leaves do not
    depend on the state it finds; in particular a second [run], on the state
    the first one left, yields the same series, ledger and state. *)
Theorem run_resets_state_and_is_deterministic :
  forall (self : Backtester.backtester) (test_days : option Z)
         (st st' : Backtester.state),
    Backtester.run self test_days st = Backtester.run self test_days st'
    /\ Backtester.run self test_days (snd (Backtester.run self test_days st))
       = Backtester.run self test_days st.
Proof.
  assert (Hreset : forall self test_days st st',
             Backtester.run self test_days st
             = Backtester.run self test_days st').
  { intros. unfold Backtester.run, Backtester.bindM at 1 3.
    unfold Backtester._reset_backtest_state, Backtester.modify.
    reflexivity. }
  intros. split; apply Hreset.
Qed.

(** C2, the code on the four-day scenario: after the short of 10 shares is
    covered at 80 on day 4 the cash is 1032 (and the NAV 1032, the account
    value 0), not 1024: the sell adds [-800 + 4] to the cash, the fee being
    computed on the negative value [-800] and added to it. *)
Theorem scenario_day4_cash :
  let r := Backtester.run scenario (Some 4%Z) empty_state in
  Backtester._available_money (snd r) == 1032
  /\ Backtester._owned_shares (snd r) = []
  /\ (exists series trades last,
        fst r = Ok (series, trades)
        /\ nth_error series 3 = Some last
        /\ Backtester.account_value last == 0
        /\ Backtester.nav last == 1032
        /\ exists t,
             dict_get "2010-09-30_TEST_SIGS_1_short" trades = Some t
             /\ Backtester.sell_value_no_fee t = Some (- (800))
             /\ option_map Qred (Backtester.sell_value_gross t)
                = Some (- (796))).
Proof.
  cbv zeta. split; [vm_compute; reflexivity | split; [reflexivity |]].
  eexists. eexists. eexists.
  split; [vm_compute; reflexivity |].
  split; [reflexivity |].
  split; [vm_compute; reflexivity |].
  split; [vm_compute; reflexivity |].
  eexists. split; [reflexivity |]. split; reflexivity.
Qed.

Lemma sell_runs (self : Backtester.backtester) (symbol : string)
    (exit_type : EntryType) (prices : dict Q) (ds : Backtester.Timestamp)
    (st : Backtester.state) (h : Backtester.holding) (p : Q)
    (t : Backtester.trade) :
  getitem prices ds = Ok p ->
  getitem (Backtester._owned_shares st) symbol = Ok h ->
  getitem (Backtester._trades st) (Backtester.trx_id h) = Ok t ->
  Backtester._sell self symbol exit_type prices ds st
  = (Ok tt, after_sell self symbol ds exit_type h p t st).
Proof.
  intros Hp Hh Ht.
  unfold Backtester._sell, Backtester.bindM, Backtester.lift, Backtester.get,
    Backtester.modify.
  rewrite Hp, Hh. cbn [Backtester._trades Backtester.set_available_money].
  rewrite Ht. reflexivity.
Qed.

(** C1 (as amended).  In the daily exit pass the exit flags alone decide
    what is sold: for a held symbol, [Sell(long)] runs when [exit_long] is 1
    and otherwise [Sell(short)] runs when [exit_short] is 1, whether the
    holding is long or short (the share count is not looked at); with
    neither flag the holding and the cash are unchanged.  A sell removes the
    holding and adds [shares * price - fee] (long exit) or
    [shares * price + fee] (short exit) to the cash, [shares] being the
    signed count held. *)
Theorem exit_check_follows_flags :
  forall (self : Backtester.backtester) (ds : Backtester.Timestamp)
         (symbol : string) (st : Backtester.state) (h : Backtester.holding)
         (prices : dict Q) (p : Q) (t : Backtester.trade)
         (exit_long exit_short : Q),
    getitem (Backtester._owned_shares st) symbol = Ok h ->
    getitem (Backtester._trades st) (Backtester.trx_id h) = Ok t ->
    Backtester.prices_of self symbol = Ok prices ->
    getitem prices ds = Ok p ->
    Backtester.signal self symbol "exit_long" ds = Ok exit_long ->
    Backtester.signal self symbol "exit_short" ds = Ok exit_short ->
    Backtester.exit_check self ds symbol st
    = (Ok tt,
       if Qeq_bool exit_long 1 then after_sell self symbol ds long h p t st
       else if Qeq_bool exit_short 1
            then after_sell self symbol ds short h p t st
            else st).
Proof.
  intros self ds symbol st h prices p t el es Hh Ht Hprices Hp Hel Hes.
  unfold Backtester.exit_check, Backtester.bindM at 1, Backtester.lift at 1.
  rewrite Hel. destruct (Qeq_bool el 1).
  - unfold Backtester.bindM, Backtester.lift. rewrite Hprices.
    apply sell_runs; assumption.
  - unfold Backtester.bindM at 1, Backtester.lift at 1. rewrite Hes.
    destruct (Qeq_bool es 1).
    + unfold Backtester.bindM, Backtester.lift. rewrite Hprices.
      apply sell_runs; assumption.
    + reflexivity.
Qed.

(** C1 at a concrete input: the short holding of [short_then_exit_long]
    after its first day, checked on the second day, where [exit_long] is 1. *)
Lemma exit_check_follows_flags_witness :
  let self := short_then_exit_long in
  let ds := "2020-01-02 00:00:00"%string in
  let st := snd (Backtester.run self (Some 1%Z) empty_state) in
  let h := {| Backtester.cnt := -4;
              Backtester.trx_id := "2020-01-01_A_short" |} in
  exists t,
    getitem (Backtester._trades st) (Backtester.trx_id h) = Ok t
    /\ Backtester.exit_check self ds "A" st
       = (Ok tt, after_sell self "A" ds long h 100 t st).
Proof.
  cbv zeta. eexists. split; [reflexivity |].
  exact (exit_check_follows_flags short_then_exit_long
           "2020-01-02 00:00:00"%string "A"%string
           (snd (Backtester.run short_then_exit_long (Some 1%Z) empty_state))
           {| Backtester.cnt := -4;
              Backtester.trx_id := "2020-01-01_A_short" |}
           [("2020-01-01 00:00:00"%string, 100);
            ("2020-01-02 00:00:00"%string, 100)]
           100 _ 1 0
           eq_refl eq_refl eq_refl eq_refl eq_refl eq_refl).
Defined.

(** C1, the claim as stated fails: the holding of [short_then_exit_long] is
    short (-4 shares) when the second day begins, that day's [exit_long]
    flag is 1 and its [exit_short] flag 0, and the exit pass sells it: the
    holding is gone and the cash goes from 896 to 492. *)
Lemma exit_long_closes_short_holding :
  let self := short_then_exit_long in
  let ds := "2020-01-02 00:00:00"%string in
  let st := snd (Backtester.run self (Some 1%Z) empty_state) in
  let st' := snd (Backtester.exit_check self ds "A" st) in
  (exists h, dict_get "A" (Backtester._owned_shares st) = Some h
             /\ (Backtester.cnt h < 0)%Z)
  /\ Backtester.signal self "A" "exit_long" ds = Ok 1
  /\ Backtester.signal self "A" "exit_short" ds = Ok 0
  /\ Backtester._available_money st == 896
  /\ Backtester._owned_shares st' = []
  /\ Backtester._available_money st' == 492
  /\ ~ (Backtester._owned_shares st' = Backtester._owned_shares st
        /\ Backtester._available_money st' == Backtester._available_money st).
Proof.
  cbv zeta. split.
  { eexists. split; [reflexivity | reflexivity]. }
  split; [reflexivity |]. split; [reflexivity |].
  split; [vm_compute; reflexivity |].
  split; [reflexivity |].
  split; [vm_compute; reflexivity |].
  intros [H _]. vm_compute in H. discriminate.
Qed.

(** *** The cash after a buy *)

Lemma Qfloor_div_mult_le (m u : Q) :
  0 < u -> inject_Z (Qfloor (m / u)) * u <= m.
Proof.
  intros Hu.
  pose proof (Qfloor_le (m / u)) as Hfl.
  apply (Qmult_le_compat_r _ _ u) in Hfl; [| lra].
  unfold Qdiv in Hfl. rewrite <- Qmult_assoc in Hfl.
  rewrite (Qmult_comm (/ u)) in Hfl.
  rewrite Qmult_inv_r in Hfl by lra. rewrite Qmult_1_r in Hfl. exact Hfl.
Qed.







(* ================================================================= *)
(** ** The repository's tests, on the embedding *)

(** [test_sorting_alphabetical] and [test_sorting_cheapest] of
    [tests/test_position_size.py]. *)
Example test_sorting :
  let candidates_10 :=
    [cand "c10" short 11; cand "c2" long 201; cand "c7" long 222;
     cand "c3" short 301; cand "c9" long 50; cand "c6" long 333;
     cand "c1" short 101; cand "c8" long 101; cand "c4" short 401;
     cand "c5" long 501] in
  map PositionSize.symbol
    (PositionSize.sort no_shuffle
       (default_sizer "alphabetically" (1 # 10) (1 # 100)) candidates_10)
  = ["c1"; "c10"; "c2"; "c3"; "c4"; "c5"; "c6"; "c7"; "c8"; "c9"]%string
  /\ map PositionSize.symbol
       (PositionSize.sort no_shuffle
          (default_sizer "cheapest" (1 # 10) (1 # 100)) candidates_10)
     = ["c10"; "c9"; "c1"; "c8"; "c2"; "c7"; "c3"; "c6"; "c4"; "c5"]%string.
Proof.
  split; reflexivity.
Qed.

(** [test_decide_what_to_buy_3_can]: a ceiling of 10000, cash 50000, the
    cheapest candidate first; fees 37.57, 37.54 and 37.60. *)
Example test_decide_what_to_buy_3_can :
  match PositionSize.FixedCapitalPerc_decide_what_to_buy no_shuffle
          (default_sizer "cheapest" (1 # 10) (1 # 100)) 50000
          [cand "c1" long 111; cand "c2" short 103; cand "c3" long 194] 100000
  with
  | Ok fills =>
      map fill_summary fills
      = [("c2"%string, 96%Z, 9888, 3757 # 100);
         ("c1"%string, 89%Z, 9879, 1877 # 50);
         ("c3"%string, 51%Z, 9894, 188 # 5)]
  | Raise _ => False
  end.
Proof.
  vm_compute. reflexivity.
Qed.

(** [test_functional_backtester_1day], [_2days] and [_3days]
    of [tests/test_backtester.py]: cash, account value and NAV are
    96/400/496, 932/0/932 and 1828/-900/928. *)
Example test_functional_backtester_days_1_to_3 :
  run_summary 1 = Some (96, 400, 496)
  /\ run_summary 2 = Some (932, 0, 932)
  /\ run_summary 3 = Some (1828, - (900), 928).
Proof.
  repeat split; vm_compute; reflexivity.
Qed.

(** With the constants of [Backtester.__init__] (0.38%, floor 4) every fee
    is at least 4. *)
Example default_fee_at_least_4 :
  forall (signals : dict (dict (dict Q))) (price_label : string)
         (init_capital v : Q),
    4 <= Backtester.calculate_fee
           (Backtester.init signals price_label init_capital) v.
Proof.
  intros.
  destruct (calc_fee_properties (38 # 10000) 4 v) as (_ & _ & H & _).
  apply H. reflexivity.
Qed.

(* ================================================================= *)
(** ** The candidate sort *)

Lemma insert_by_perm {A} (le : A -> A -> bool) (x : A) (l : list A) :
  Permutation (x :: l) (insert_by le x l).
Proof.
  induction l as [| y l IH]; simpl; [reflexivity |].
  destruct (le x y); [reflexivity |].
  rewrite perm_swap. constructor. exact IH.
Qed.

Lemma stable_sort_perm {A} (le : A -> A -> bool) (l : list A) :
  Permutation l (stable_sort le l).
Proof.
  induction l as [| x l IH]; simpl; [reflexivity |].
  rewrite <- insert_by_perm. constructor. exact IH.
Qed.

Lemma insert_by_sorted {A} (le : A -> A -> bool) (x : A) (l : list A) :
  (forall a b, le a b = true \/ le b a = true) ->
  Sorted (fun a b => le a b = true) l ->
  Sorted (fun a b => le a b = true) (insert_by le x l).
Proof.
  intros Htotal. induction 1 as [| y l Hl IH Hhd]; simpl.
  - repeat constructor.
  - destruct (le x y) eqn:Hxy.
    + constructor; [constructor; assumption | constructor; exact Hxy].
    + constructor; [exact IH |].
      assert (Hyx : le y x = true)
        by (destruct (Htotal x y) as [H | H]; [congruence | exact H]).
      destruct l as [| z l]; simpl; [constructor; exact Hyx |].
      destruct (le x z); constructor; [exact Hyx |].
      inversion Hhd; assumption.
Qed.

Lemma stable_sort_sorted {A} (le : A -> A -> bool) (l : list A) :
  (forall a b, le a b = true \/ le b a = true) ->
  Sorted (fun a b => le a b = true) (stable_sort le l).
Proof.
  intros Htotal. induction l as [| x l IH]; simpl; [constructor |].
  apply insert_by_sorted; assumption.
Qed.

(** Items that a predicate [P] selects keep their order, when any two of
    them compare as [le]. *)
Lemma stable_sort_filter {A} (le : A -> A -> bool) (P : A -> bool)
    (l : list A) :
  (forall a b, P a = true -> P b = true -> le a b = true) ->
  filter P (stable_sort le l) = filter P l.
Proof.
  intros Hclass.
  assert (Hins : forall x l', filter P (insert_by le x l')
                              = filter P (x :: l')).
  { intros x l'. induction l' as [| y l' IH]; [reflexivity |].
    cbn [insert_by]. destruct (le x y) eqn:Hxy; [reflexivity |].
    cbn [filter] in *. rewrite IH.
    destruct (P x) eqn:Hx, (P y) eqn:Hy; try reflexivity.
    rewrite (Hclass x y Hx Hy) in Hxy. discriminate. }
  induction l as [| x l IH]; [reflexivity |].
  cbn [stable_sort fold_right]. fold (stable_sort le l).
  rewrite Hins. cbn [filter]. rewrite IH. reflexivity.
Qed.

Lemma Qle_bool_total (a b : Q) : Qle_bool a b = true \/ Qle_bool b a = true.
Proof.
  rewrite !Qle_bool_iff. destruct (Qlt_le_dec a b); [left | right]; lra.
Qed.

(** X1.  [sort] neither drops nor duplicates a candidate: its result is a
    rearrangement of the list it is given, for every [sort_type] (for
    ['random'], as long as the shuffle is one). *)
Theorem sort_is_permutation :
  forall (shuffle : list PositionSize.candidate -> list PositionSize.candidate)
         (self : PositionSize.sizer)
         (candidates : list PositionSize.candidate),
    (forall l, Permutation l (shuffle l)) ->
    Permutation candidates (PositionSize.sort shuffle self candidates).
Proof.
  intros shuffle self candidates Hshuffle. unfold PositionSize.sort.
  repeat match goal with
         | |- context [if ?b then _ else _] => destruct b
         end;
    auto using stable_sort_perm, Permutation_refl.
Qed.

Lemma sort_is_permutation_witness :
  Permutation [cand "b" long 2; cand "a" short 1]
    (PositionSize.sort no_shuffle
       (default_sizer "alphabetically" (1 # 10) (1 # 100))
       [cand "b" long 2; cand "a" short 1]).
Proof.
  apply (sort_is_permutation no_shuffle
           (default_sizer "alphabetically" (1 # 10) (1 # 100))
           [cand "b" long 2; cand "a" short 1]).
  intros l. apply Permutation_refl.
Defined.

(** X2.  The three orderings of [sort]: ['alphabetically'] leaves the
    symbols in non-decreasing order of their text, ['cheapest'] the prices
    in non-decreasing order, ['expensive'] the prices in non-increasing
    order. *)
Theorem sort_orders :
  forall (shuffle : list PositionSize.candidate -> list PositionSize.candidate)
         (fee_perc min_fee capital_perc perc_risk : Q)
         (candidates : list PositionSize.candidate),
    let sizer st :=
      PositionSize.mkSizer fee_perc min_fee st capital_perc perc_risk in
    Sorted (fun a b => String.leb (PositionSize.symbol a)
                         (PositionSize.symbol b) = true)
      (PositionSize.sort shuffle (sizer "alphabetically"%string) candidates)
    /\ Sorted (fun a b => PositionSize.price a <= PositionSize.price b)
         (PositionSize.sort shuffle (sizer "cheapest"%string) candidates)
    /\ Sorted (fun a b => PositionSize.price b <= PositionSize.price a)
         (PositionSize.sort shuffle (sizer "expensive"%string) candidates).
Proof.
  intros. unfold sizer, PositionSize.sort. cbn [PositionSize.sort_type].
  change (String.eqb "alphabetically" "alphabetically") with true.
  change (String.eqb "cheapest" "alphabetically") with false.
  change (String.eqb "cheapest" "random") with false.
  change (String.eqb "cheapest" "cheapest") with true.
  change (String.eqb "expensive" "alphabetically") with false.
  change (String.eqb "expensive" "random") with false.
  change (String.eqb "expensive" "cheapest") with false.
  change (String.eqb "expensive" "expensive") with true.
  cbv iota. split; [| split].
  - apply stable_sort_sorted. intros a b. apply String.leb_total.
  - eapply Sorted_ind
      with (P := fun l => Sorted (fun a b => PositionSize.price a
                                              <= PositionSize.price b) l);
      [constructor | | apply (stable_sort_sorted
                         (fun c1 c2 => Qle_bool (PositionSize.price c1)
                                         (PositionSize.price c2)));
                       intros a b; apply Qle_bool_total].
    intros a l _ IH Hhd. constructor; [exact IH |].
    destruct Hhd; constructor. apply Qle_bool_iff. assumption.
  - eapply Sorted_ind
      with (P := fun l => Sorted (fun a b => PositionSize.price b
                                              <= PositionSize.price a) l);
      [constructor | | apply (stable_sort_sorted
                         (fun c1 c2 => Qle_bool (PositionSize.price c2)
                                         (PositionSize.price c1)));
                       intros a b; apply Qle_bool_total].
    intros a l _ IH Hhd. constructor; [exact IH |].
    destruct Hhd; constructor. apply Qle_bool_iff. assumption.
Qed.

(** X3.  The sort is stable: under ['cheapest'] and under ['expensive'] the
    candidates of one price keep the order they were given in, and under
    ['alphabetically'] those of one symbol do. *)
Theorem sort_keeps_ties_in_order :
  forall (shuffle : list PositionSize.candidate -> list PositionSize.candidate)
         (fee_perc min_fee capital_perc perc_risk : Q)
         (candidates : list PositionSize.candidate) (p : Q) (s : string),
    let sizer st :=
      PositionSize.mkSizer fee_perc min_fee st capital_perc perc_risk in
    let at_price c := Qeq_bool (PositionSize.price c) p in
    let of_symbol c := String.eqb (PositionSize.symbol c) s in
    filter at_price
      (PositionSize.sort shuffle (sizer "cheapest"%string) candidates)
    = filter at_price candidates
    /\ filter at_price
         (PositionSize.sort shuffle (sizer "expensive"%string) candidates)
       = filter at_price candidates
    /\ filter of_symbol
         (PositionSize.sort shuffle (sizer "alphabetically"%string) candidates)
       = filter of_symbol candidates.
Proof.
  intros. unfold sizer, PositionSize.sort. cbn [PositionSize.sort_type].
  change (String.eqb "alphabetically" "alphabetically") with true.
  change (String.eqb "cheapest" "alphabetically") with false.
  change (String.eqb "cheapest" "random") with false.
  change (String.eqb "cheapest" "cheapest") with true.
  change (String.eqb "expensive" "alphabetically") with false.
  change (String.eqb "expensive" "random") with false.
  change (String.eqb "expensive" "cheapest") with false.
  change (String.eqb "expensive" "expensive") with true.
  cbv iota. unfold at_price, of_symbol.
  split; [| split]; apply stable_sort_filter; intros a b Ha Hb.
  - apply Qeq_bool_iff in Ha, Hb. apply Qle_bool_iff. rewrite Ha, Hb.
    apply Qle_refl.
  - apply Qeq_bool_iff in Ha, Hb. apply Qle_bool_iff. rewrite Ha, Hb.
    apply Qle_refl.
  - apply String.eqb_eq in Ha, Hb. rewrite Ha, Hb.
    destruct (String.leb_total s s); assumption.
Qed.

(* ================================================================= *)
(** ** What the sizers return *)

Lemma picked_none {A B} (R : A -> B -> Prop) (l : list A) : picked R l [].
Proof.
  induction l; constructor; assumption.
Qed.

Lemma picked_one {A B} (R : A -> B -> Prop) (pre : list A) (a : A)
    (post : list A) (f : B) :
  R a f -> picked R (pre ++ a :: post) [f].
Proof.
  intros H. induction pre as [| x pre IH]; simpl.
  - apply picked_take; [exact H | apply picked_none].
  - apply picked_skip. exact IH.
Qed.

Lemma picked_impl {A B} (R R' : A -> B -> Prop) (l : list A) (fs : list B) :
  (forall a f, In a l -> R a f -> R' a f) -> picked R l fs -> picked R' l fs.
Proof.
  intros HR H. induction H as [| a l fs _ IH | a f l fs Ha _ IH].
  - constructor.
  - apply picked_skip. apply IH. intros; apply HR; simpl; auto.
  - apply picked_take; [apply HR; simpl; auto |].
    apply IH. intros; apply HR; simpl; auto.
Qed.

Lemma max_fill_is_fill_of (self : PositionSize.sizer) (money : Q)
    (c : PositionSize.candidate) :
  whole_shares self money c <> 0%Z -> fill_of self c (max_fill self money c).
Proof.
  intros Hnz. split; [exact Hnz | reflexivity].
Qed.

Lemma fcp_fills_picked (self : PositionSize.sizer) (ceiling cash : Q)
    (cs : list PositionSize.candidate) (fs : list PositionSize.fill) :
  fcp_fills self ceiling cash cs fs ->
  picked (fun c f => fill_of self c f
                     /\ exists m, m <= ceiling /\ f = max_fill self m c)
    cs fs.
Proof.
  induction 1 as [m | m c rest fs _ _ IH | m c rest fs _ Hnz _ IH].
  - constructor.
  - apply picked_skip. exact IH.
  - apply picked_take; [| exact IH]. split.
    + apply max_fill_is_fill_of. exact Hnz.
    + exists (Qmin m ceiling). split; [apply Q.le_min_r | reflexivity].
Qed.

(** The loop of PercentageRisk picks its fills by any relation [R] that
    holds between a candidate and the fill of a non-zero share count computed
    for it. *)
Lemma pr_loop_picked (self : PositionSize.sizer) (capital : Q)
    (R : PositionSize.candidate -> PositionSize.fill -> Prop)
    (cs : list PositionSize.candidate) :
  Forall (fun c => forall m n,
            PositionSize.pr_shares self capital m c = Ok n -> n <> 0%Z ->
            R c (PositionSize._define_symbol_to_buy c n
                   (inject_Z n * PositionSize.price c)
                   (PositionSize.calculate_fee self
                      (inject_Z n * PositionSize.price c)))) cs ->
  forall m acc l,
    PositionSize.pr_loop self capital (m, acc) cs = Ok l ->
    exists new, snd l = acc ++ new /\ picked R cs new.
Proof.
  induction 1 as [| c rest Hc _ IH]; intros m acc l H.
  - injection H as <-. exists []. rewrite app_nil_r. split; constructor.
  - apply pr_loop_ok_step in H.
    destruct H as (n & l1 & Hn & Hrest & [[-> _] | [Hnz ->]]).
    + apply IH in Hrest. destruct Hrest as (new & Hnew & Hp).
      exists new. split; [exact Hnew | apply picked_skip; exact Hp].
    + apply IH in Hrest. destruct Hrest as (new & Hnew & Hp).
      eexists. rewrite Hnew, <- app_assoc. split; [reflexivity |].
      apply picked_take; [| exact Hp]. apply (Hc m n); assumption.
Qed.

(** X4.  Every fill that a sizer returns answers one of the candidates, in
    the order of the sorted candidates and at most one fill per candidate:
    it carries that candidate's symbol, entry type and price, a share count
    that is not zero, [trx_value = shares_count * price] and the fee of the
    fee model on that value. *)
Theorem fills_answer_candidates :
  forall (shuffle : list PositionSize.candidate -> list PositionSize.candidate)
         (self : PositionSize.sizer) (k : PositionSize.sizer_class)
         (money capital : Q) (candidates : list PositionSize.candidate)
         (fs : list PositionSize.fill),
    PositionSize.decide_what_to_buy shuffle self k money candidates capital
      = Ok fs ->
    picked (fill_of self) (PositionSize.sort shuffle self candidates) fs.
Proof.
  intros shuffle self k money capital candidates fs H.
  destruct k; simpl in H.
  - unfold PositionSize.MaxFirstEncountered_decide_what_to_buy in H.
    pose proof (mfe_loop_outcome self money
                  (PositionSize.sort shuffle self candidates)) as Hout.
    rewrite H in Hout. destruct fs as [| f [| g fs]]; simpl in Hout.
    + apply picked_none.
    + destruct Hout as (pre & c & post & -> & _ & _ & Hnz & -> & _).
      apply picked_one. apply max_fill_is_fill_of. exact Hnz.
    + contradiction.
  - unfold PositionSize.FixedCapitalPerc_decide_what_to_buy in H.
    destruct (PositionSize.fcp_loop _ _ _ _) as [[m' out] | e] eqn:Hl;
      simpl in H; [| discriminate].
    injection H as <-. apply fcp_loop_sound in Hl.
    destruct Hl as (fs' & -> & Hfs). apply fcp_fills_picked in Hfs.
    eapply picked_impl; [| exact Hfs]. intros c f _ [Hf _]. exact Hf.
  - unfold PositionSize.PercentageRisk_decide_what_to_buy in H.
    destruct (PositionSize.pr_loop _ _ _ _) as [[m' out] | e] eqn:Hl;
      simpl in H; [| discriminate].
    injection H as <-.
    apply (pr_loop_picked self capital (fill_of self)) in Hl.
    + destruct Hl as (new & Hnew & Hp). simpl in Hnew. subst out. exact Hp.
    + apply Forall_forall. intros c _ m n _ Hnz. split; [exact Hnz | reflexivity].
Qed.

Lemma fills_answer_candidates_witness :
  let self := default_sizer "cheapest" (1 # 10) (1 # 100) in
  let candidates :=
    [cand "c1" long 111; cand "c2" short 103; cand "c3" long 194] in
  PositionSize.sort no_shuffle self candidates
  = [cand "c2" short 103; cand "c1" long 111; cand "c3" long 194]
  /\ picked (fill_of self) (PositionSize.sort no_shuffle self candidates)
       [max_fill self 10000 (cand "c2" short 103);
        max_fill self 10000 (cand "c1" long 111);
        max_fill self 10000 (cand "c3" long 194)].
Proof.
  cbv zeta. split; [reflexivity |].
  apply (fills_answer_candidates no_shuffle
           (default_sizer "cheapest" (1 # 10) (1 # 100))
           PositionSize.FixedCapitalPerc 50000 100000
           [cand "c1" long 111; cand "c2" short 103; cand "c3" long 194]).
  reflexivity.
Defined.

(** X5.  No fill of FixedCapitalPerc is sized above the per-trade ceiling:
    when the estimated unit cost [price + price * fee_perc] of the
    candidates is positive, every fill's [trx_value + trx_value * fee_perc]
    is at most [round(capital * capital_perc, 2)]. *)
Theorem FixedCapitalPerc_within_ceiling :
  forall (shuffle : list PositionSize.candidate -> list PositionSize.candidate)
         (self : PositionSize.sizer) (money capital : Q)
         (candidates : list PositionSize.candidate)
         (fs : list PositionSize.fill),
    Forall (fun c => 0 < unit_cost self c)
      (PositionSize.sort shuffle self candidates) ->
    PositionSize.FixedCapitalPerc_decide_what_to_buy shuffle self money
      candidates capital = Ok fs ->
    Forall (fun f => PositionSize.trx_value f
                     + PositionSize.trx_value f * PositionSize.fee_perc self
                     <= round2 (capital * PositionSize.capital_perc self)) fs.
Proof.
  intros shuffle self money capital candidates fs Hpos H.
  unfold PositionSize.FixedCapitalPerc_decide_what_to_buy in H.
  destruct (PositionSize.fcp_loop _ _ _ _) as [[m' out] | e] eqn:Hl;
    simpl in H; [| discriminate].
  injection H as <-. apply fcp_loop_sound in Hl.
  destruct Hl as (fs' & -> & Hfs). simpl.
  apply fcp_fills_picked in Hfs.
  revert Hpos. induction Hfs as [| c l fs _ IH | c f l fs Hcf _ IH]; intros Hpos.
  - constructor.
  - apply IH. inversion Hpos; assumption.
  - inversion Hpos as [| c' l' Hc Hl']; subst.
    constructor; [| apply IH; exact Hl'].
    destruct Hcf as (_ & m & Hm & ->). cbn [max_fill PositionSize.trx_value].
    pose proof (whole_shares_affordable self m c Hc) as Hle.
    unfold unit_cost in Hle. lra.
Qed.

Lemma FixedCapitalPerc_within_ceiling_witness :
  let self := default_sizer "alphabetically" (1 # 10) (1 # 100) in
  Forall (fun f => PositionSize.trx_value f
                   + PositionSize.trx_value f * PositionSize.fee_perc self
                   <= round2 (10000 * PositionSize.capital_perc self))
    [max_fill self 1000 (cand "c1" long 123)].
Proof.
  cbv zeta.
  apply (FixedCapitalPerc_within_ceiling no_shuffle
           (default_sizer "alphabetically" (1 # 10) (1 # 100)) 5000 10000
           [cand "c1" long 123]).
  - constructor; [reflexivity | constructor].
  - reflexivity.
Defined.

Lemma Qfloor_le_int (x : Q) (z : Z) : x <= inject_Z z -> (Qfloor x <= z)%Z.
Proof.
  intros H. rewrite <- (Qfloor_Z z). apply Qfloor_resp_le. exact H.
Qed.

Lemma Qfloor_nonneg (x : Q) : 0 <= x -> (0 <= Qfloor x)%Z.
Proof.
  intros H. rewrite <- (Qfloor_Z 0). apply Qfloor_resp_le. exact H.
Qed.

(** The share count PercentageRisk computes for a candidate risks no more
    than the budget. *)
Lemma pr_shares_risk (self : PositionSize.sizer) (capital m : Q)
    (c : PositionSize.candidate) (n : Z) :
  0 <= PositionSize.fee_perc self ->
  0 <= capital * PositionSize.perc_risk self ->
  0 < PositionSize.price c ->
  PositionSize.pr_shares self capital m c = Ok n ->
  exists s,
    PositionSize.stop_loss c = Some (PositionSize.Num s)
    /\ inject_Z n * Qabs (PositionSize.price c - s)
       <= round2 (capital * PositionSize.perc_risk self).
Proof.
  intros Hfp Hrisk Hprice Hn.
  destruct (check_stop_loss_cases c) as [[_ [msg Hmsg]] | (s & Hsl & _ & Hok)].
  { unfold PositionSize.pr_shares in Hn. rewrite Hmsg in Hn. discriminate. }
  exists s. split; [exact Hsl |].
  unfold PositionSize.pr_shares in Hn. rewrite Hok in Hn. cbn [bind] in Hn.
  set (var := Qabs (PositionSize.price c - s)) in *.
  set (budget := round2 (capital * PositionSize.perc_risk self)) in *.
  assert (Hbudget : 0 <= budget).
  { unfold budget. apply Qle_trans with (round2 0);
      [discriminate | apply round2_mono, Hrisk]. }
  destruct (Qeq_dec var 0) as [Hz | Hnz].
  { rewrite (proj2 (floordiv_raise _ _ _) (conj Hz eq_refl)) in Hn.
    discriminate. }
  rewrite (proj2 (floordiv_ok _ _ _) (conj Hnz eq_refl)) in Hn.
  cbn [bind] in Hn.
  assert (Hvar : 0 < var).
  { pose proof (Qabs_nonneg (PositionSize.price c - s)). fold var in H.
    destruct (Qlt_le_dec 0 var); [assumption |].
    exfalso. apply Hnz. lra. }
  set (th := Qfloor (budget / var)) in *.
  assert (Hth0 : 0 <= inject_Z th).
  { change 0 with (inject_Z 0). rewrite <- Zle_Qle. apply Qfloor_nonneg.
    apply Qle_shift_div_l; [exact Hvar | lra]. }
  assert (Hthvar : inject_Z th * var <= budget)
    by (apply Qfloor_div_mult_le; exact Hvar).
  set (u := PositionSize.price c
            + PositionSize.price c * PositionSize.fee_perc self).
  assert (Hu : 0 < u).
  { unfold u.
    pose proof (Qmult_le_0_compat _ _ (Qlt_le_weak _ _ Hprice) Hfp). lra. }
  assert (Hpu : inject_Z th * PositionSize.price c <= inject_Z th * u).
  { unfold u.
    pose proof (Qmult_le_0_compat _ _ (Qlt_le_weak _ _ Hprice) Hfp) as H1.
    pose proof (Qmult_le_0_compat _ _ Hth0 H1) as H2. lra. }
  assert (Hbound : forall M, M <= inject_Z th * PositionSize.price c ->
             PositionSize.get_shares_count self M (PositionSize.price c) = Ok n ->
             (n <= th)%Z).
  { intros M HM HMn. unfold PositionSize.get_shares_count in HMn.
    apply floordiv_ok in HMn. destruct HMn as [_ ->].
    apply Qfloor_le_int. apply Qle_shift_div_r; [exact Hu | fold u; lra]. }
  assert (Hnth : (n <= th)%Z).
  { destruct (Qlt_le_dec m (inject_Z th * PositionSize.price c)) as [Hlt | Hle].
    - apply (Hbound m); [lra | exact Hn].
    - apply (Hbound (inject_Z th * PositionSize.price c)); [lra | exact Hn]. }
  rewrite Zle_Qle in Hnth.
  apply Qle_trans with (inject_Z th * var); [| exact Hthvar].
  apply Qmult_le_compat_r; [exact Hnth | lra].
Qed.

(** X6.  PercentageRisk keeps the risk of every fill within the budget:
    with a fee rate and a risk budget [capital * perc_risk] that are not
    negative and prices that are positive, every fill answers a candidate
    (in sort order) and its share count times [|price - stop_loss|] is at
    most [round(capital * perc_risk, 2)]. *)
Theorem PercentageRisk_risk_within_budget :
  forall (shuffle : list PositionSize.candidate -> list PositionSize.candidate)
         (self : PositionSize.sizer) (money capital : Q)
         (candidates : list PositionSize.candidate)
         (fs : list PositionSize.fill),
    0 <= PositionSize.fee_perc self ->
    0 <= capital * PositionSize.perc_risk self ->
    Forall (fun c => 0 < PositionSize.price c)
      (PositionSize.sort shuffle self candidates) ->
    PositionSize.PercentageRisk_decide_what_to_buy shuffle self money
      candidates capital = Ok fs ->
    picked (risk_within (round2 (capital * PositionSize.perc_risk self)))
      (PositionSize.sort shuffle self candidates) fs.
Proof.
  intros shuffle self money capital candidates fs Hfp Hrisk Hprices H.
  unfold PositionSize.PercentageRisk_decide_what_to_buy in H.
  destruct (PositionSize.pr_loop _ _ _ _) as [[m' out] | e] eqn:Hl;
    simpl in H; [| discriminate].
  injection H as <-.
  apply (pr_loop_picked self capital
           (risk_within (round2 (capital * PositionSize.perc_risk self))))
    in Hl.
  - destruct Hl as (new & Hnew & Hp). simpl in Hnew. subst out. exact Hp.
  - eapply Forall_impl; [| exact Hprices].
    intros c Hprice m n Hn _. split; [reflexivity |].
    exact (pr_shares_risk self capital m c n Hfp Hrisk Hprice Hn).
Qed.

Lemma PercentageRisk_risk_within_budget_witness :
  let self := default_sizer "alphabetically" (1 # 10) (1 # 100) in
  exists fs,
    PositionSize.PercentageRisk_decide_what_to_buy no_shuffle self 1000
      [cand_stop "A" long 100 95] 10000 = Ok fs
    /\ map PositionSize.shares_count fs = [9%Z]
    /\ picked (risk_within (round2 (10000 * PositionSize.perc_risk self)))
         [cand_stop "A" long 100 95] fs.
Proof.
  cbv zeta. eexists. split; [reflexivity |]. split; [reflexivity |].
  apply (PercentageRisk_risk_within_budget no_shuffle
           (default_sizer "alphabetically" (1 # 10) (1 # 100)) 1000 10000
           [cand_stop "A" long 100 95]).
  - discriminate.
  - discriminate.
  - constructor; [reflexivity | constructor].
  - reflexivity.
Defined.

(* ================================================================= *)
(** ** Dictionaries and the state monad *)

Lemma dict_get_set_same {V} (k : string) (v : V) (d : dict V) :
  dict_get k (dict_set k v d) = Some v.
Proof.
  induction d as [| [k' v'] d IH]; simpl.
  - rewrite String.eqb_refl. reflexivity.
  - destruct (String.eqb k k') eqn:Hk; simpl.
    + rewrite String.eqb_refl. reflexivity.
    + rewrite Hk. exact IH.
Qed.

Lemma dict_get_set_other {V} (k k' : string) (v : V) (d : dict V) :
  k' <> k -> dict_get k' (dict_set k v d) = dict_get k' d.
Proof.
  intros Hne. induction d as [| [k0 v0] d IH]; simpl.
  - apply String.eqb_neq in Hne. rewrite Hne. reflexivity.
  - destruct (String.eqb k k0) eqn:Hk; simpl.
    + apply String.eqb_eq in Hk. subst k0.
      apply String.eqb_neq in Hne. rewrite Hne. reflexivity.
    + destruct (String.eqb k' k0); [reflexivity | exact IH].
Qed.

Lemma dict_get_set_kept {V} (k k' : string) (v : V) (d : dict V) :
  dict_get k' d <> None -> dict_get k' (dict_set k v d) <> None.
Proof.
  intros H. destruct (string_dec k' k) as [-> | Hne].
  - rewrite dict_get_set_same. discriminate.
  - rewrite dict_get_set_other by exact Hne. exact H.
Qed.

Lemma dict_get_none {V} (k : string) (d : dict V) :
  dict_get k d = None <-> ~ In k (dict_keys d).
Proof.
  induction d as [| [k' v'] d IH]; simpl; [tauto |].
  destruct (String.eqb_spec k k') as [-> | Hne].
  - split; [discriminate | intros H; exfalso; apply H; auto].
  - rewrite IH. split; [intros H [Heq | Hin]; [congruence | auto] | tauto].
Qed.

Lemma dict_set_fresh {V} (k : string) (v : V) (d : dict V) :
  dict_get k d = None -> dict_set k v d = d ++ [(k, v)].
Proof.
  induction d as [| [k' v'] d IH]; simpl; [reflexivity |].
  destruct (String.eqb k k'); [discriminate |].
  intros H. rewrite (IH H). reflexivity.
Qed.

Lemma dict_keys_set_present {V} (k : string) (v : V) (d : dict V) :
  dict_get k d <> None -> dict_keys (dict_set k v d) = dict_keys d.
Proof.
  induction d as [| [k' v'] d IH]; simpl; [congruence |].
  destruct (String.eqb_spec k k') as [-> | Hne]; [reflexivity |].
  intros H. simpl. f_equal. apply IH, H.
Qed.

Lemma dict_pop_set_fresh {V} (k : string) (v : V) (d : dict V) :
  dict_get k d = None -> dict_pop k (dict_set k v d) = d.
Proof.
  induction d as [| [k' v'] d IH]; simpl.
  - rewrite String.eqb_refl. reflexivity.
  - destruct (String.eqb k k') eqn:Hk; [discriminate |].
    intros H. simpl. rewrite Hk, (IH H). reflexivity.
Qed.

Lemma bindM_ok {A B} (m : Backtester.M A) (k : A -> Backtester.M B)
    (st st' : Backtester.state) (b : B) :
  Backtester.bindM m k st = (Ok b, st') ->
  exists a st1, m st = (Ok a, st1) /\ k a st1 = (Ok b, st').
Proof.
  unfold Backtester.bindM. destruct (m st) as [[a | e] st1]; [eauto |].
  discriminate.
Qed.

Lemma for_each_ok_cons {A} (body : A -> Backtester.M unit) (x : A)
    (l : list A) (st st' : Backtester.state) :
  Backtester.for_each body (x :: l) st = (Ok tt, st') ->
  exists st1, body x st = (Ok tt, st1)
              /\ Backtester.for_each body l st1 = (Ok tt, st').
Proof.
  intros H. apply bindM_ok in H. destruct H as ([] & st1 & H1 & H2). eauto.
Qed.

Section Frame.

Variable R : Backtester.state -> Backtester.state -> Prop.
Hypothesis R_refl : forall st, R st st.
Hypothesis R_trans : forall a b c, R a b -> R b c -> R a c.

Lemma keeps_ret {A} (a : A) : keeps R (Backtester.ret a).
Proof. intros st. apply R_refl. Qed.

Lemma keeps_lift {A} (r : result A) : keeps R (Backtester.lift r).
Proof. intros st. apply R_refl. Qed.

Lemma keeps_get : keeps R Backtester.get.
Proof. intros st. apply R_refl. Qed.

Lemma keeps_modify (f : Backtester.state -> Backtester.state) :
  (forall st, R st (f st)) -> keeps R (Backtester.modify f).
Proof. intros H st. apply H. Qed.

Lemma keeps_bind {A B} (m : Backtester.M A) (k : A -> Backtester.M B) :
  keeps R m -> (forall a, keeps R (k a)) -> keeps R (Backtester.bindM m k).
Proof.
  intros Hm Hk st. unfold Backtester.bindM.
  pose proof (Hm st) as H1. destruct (m st) as [[a | e] st1]; simpl in H1.
  - eapply R_trans; [exact H1 | apply Hk].
  - exact H1.
Qed.

Lemma keeps_for_each {A} (body : A -> Backtester.M unit) (l : list A) :
  (forall x, keeps R (body x)) -> keeps R (Backtester.for_each body l).
Proof.
  intros Hbody. induction l as [| x l IH]; simpl.
  - apply keeps_ret.
  - apply keeps_bind; [apply Hbody | intros _; exact IH].
Qed.

Lemma keeps_if {A} (b : bool) (m1 m2 : Backtester.M A) :
  keeps R m1 -> keeps R m2 -> keeps R (if b then m1 else m2).
Proof. destruct b; auto. Qed.

End Frame.

(** Splits a method into its binds, leaving the state updates to show. *)
Ltac keeps_steps Rrefl Rtrans :=
  repeat first
    [ progress cbv zeta
    | apply (keeps_ret _ Rrefl)
    | apply (keeps_lift _ Rrefl)
    | apply (keeps_get _ Rrefl)
    | apply (keeps_bind _ Rtrans); [| intros ?]
    | apply keeps_if
    | apply keeps_modify; intros ? ].

Section MethodsKeep.

Variable R : Backtester.state -> Backtester.state -> Prop.
Hypothesis R_refl : forall st, R st st.
Hypothesis R_trans : forall a b c, R a b -> R b c -> R a c.
Hypothesis R_cash : forall st m, R st (Backtester.set_available_money m st).
Hypothesis R_owned : forall st d, R st (Backtester.set_owned_shares d st).
Hypothesis R_trades :
  forall st id t,
    R st (Backtester.set_trades (dict_set id t (Backtester._trades st)) st).

Variable self : Backtester.backtester.

Lemma keeps_sell symbol exit_type prices ds :
  keeps R (Backtester._sell self symbol exit_type prices ds).
Proof.
  unfold Backtester._sell. keeps_steps R_refl R_trans; auto.
Qed.

Lemma keeps_buy trx ds : keeps R (Backtester._buy trx ds).
Proof.
  unfold Backtester._buy. keeps_steps R_refl R_trans; auto.
  destruct (Backtester.f_entry_type trx);
    (eapply R_trans; [apply R_owned | apply R_cash]).
Qed.

Lemma keeps_exit_check ds symbol :
  keeps R (Backtester.exit_check self ds symbol).
Proof.
  unfold Backtester.exit_check.
  apply (keeps_bind _ R_trans); [apply (keeps_lift _ R_refl) | intros el].
  apply keeps_if.
  - apply (keeps_bind _ R_trans); [apply (keeps_lift _ R_refl) |].
    intros prices. apply keeps_sell.
  - apply (keeps_bind _ R_trans); [apply (keeps_lift _ R_refl) | intros es].
    apply keeps_if; [| apply (keeps_ret _ R_refl)].
    apply (keeps_bind _ R_trans); [apply (keeps_lift _ R_refl) |].
    intros prices. apply keeps_sell.
Qed.

Lemma keeps_buying_decisions cands :
  keeps R (Backtester.buying_decisions self cands).
Proof.
  unfold Backtester.buying_decisions. keeps_steps R_refl R_trans.
Qed.

(** What a day does before its summary: exits, candidates, buys. *)
Lemma keeps_trading symbols_in_day ds (k : Backtester.M unit) :
  keeps R k -> keeps R (trading self symbols_in_day ds k).
Proof.
  intros Hk. unfold trading.
  apply (keeps_bind _ R_trans); [apply (keeps_get _ R_refl) | intros st].
  apply (keeps_bind _ R_trans);
    [apply (keeps_for_each _ R_refl R_trans); intros; apply keeps_exit_check
    | intros _].
  apply (keeps_bind _ R_trans); [apply (keeps_lift _ R_refl) | intros syms].
  apply (keeps_bind _ R_trans); [apply (keeps_lift _ R_refl) | intros cands].
  apply (keeps_bind _ R_trans); [apply keeps_buying_decisions | intros fills].
  apply (keeps_bind _ R_trans);
    [apply (keeps_for_each _ R_refl R_trans); intros; apply keeps_buy
    | intros _; exact Hk].
Qed.

End MethodsKeep.

Lemma trades_kept_refl st : trades_kept st st.
Proof. intros id H. exact H. Qed.

Lemma trades_kept_trans a b c :
  trades_kept a b -> trades_kept b c -> trades_kept a c.
Proof. intros H1 H2 id H. apply H2, H1, H. Qed.

Lemma same_snapshots_refl st : same_snapshots st st.
Proof. repeat split. Qed.

Lemma same_snapshots_trans a b c :
  same_snapshots a b -> same_snapshots b c -> same_snapshots a c.
Proof.
  intros (H1 & H2 & H3) (H4 & H5 & H6). repeat split; congruence.
Qed.

Lemma keeps_summarize_trades self ds :
  keeps trades_kept (Backtester._summarize_day self ds).
Proof.
  unfold Backtester._summarize_day.
  keeps_steps trades_kept_refl trades_kept_trans; apply trades_kept_refl.
Qed.

(** X7.  No trade is deleted while the days of a run are processed: a
    trade identifier that is in the ledger stays in it through the exits,
    buys and summary of every day, also when a day raises. *)
Theorem day_loop_keeps_trades :
  forall (self : Backtester.backtester) (symbols_in_day : dict (list string))
         (days : list Backtester.Timestamp) (st : Backtester.state),
    trades_kept st
      (snd (Backtester.for_each (Backtester.day self symbols_in_day) days st)).
Proof.
  intros self sid days.
  apply (keeps_for_each _ trades_kept_refl trades_kept_trans). intros ds.
  change (Backtester.day self sid ds)
    with (trading self sid ds (Backtester._summarize_day self ds)).
  apply (keeps_trading trades_kept trades_kept_refl trades_kept_trans).
  - intros st m id H. exact H.
  - intros st d id H. exact H.
  - intros st id t id' H. simpl. apply dict_get_set_kept. exact H.
  - apply keeps_summarize_trades.
Qed.

(* ================================================================= *)
(** ** The daily snapshot and the valuation series *)

Lemma trading_ok (self : Backtester.backtester)
    (symbols_in_day : dict (list string)) (ds : Backtester.Timestamp)
    (k : Backtester.M unit) (st st' : Backtester.state) :
  trading self symbols_in_day ds k st = (Ok tt, st') ->
  exists st1,
    trading self symbols_in_day ds (Backtester.ret tt) st = (Ok tt, st1)
    /\ k st1 = (Ok tt, st').
Proof.
  unfold trading. intros H.
  apply bindM_ok in H. destruct H as (s0 & st0 & H0 & H).
  apply bindM_ok in H. destruct H as ([] & stA & HA & H).
  apply bindM_ok in H. destruct H as (syms & stB & HB & H).
  apply bindM_ok in H. destruct H as (cands & stC & HC & H).
  apply bindM_ok in H. destruct H as (fills & stD & HD & H).
  apply bindM_ok in H. destruct H as ([] & stE & HE & H).
  exists stE. split; [| exact H].
  unfold Backtester.bindM at 1. rewrite H0.
  unfold Backtester.bindM at 1. rewrite HA.
  unfold Backtester.bindM at 1. rewrite HB.
  unfold Backtester.bindM at 1. rewrite HC.
  unfold Backtester.bindM at 1. rewrite HD.
  unfold Backtester.bindM at 1. rewrite HE. reflexivity.
Qed.

Lemma summarize_ok (self : Backtester.backtester) (ds : Backtester.Timestamp)
    (st st' : Backtester.state) :
  Backtester._summarize_day self ds st = (Ok tt, st') ->
  exists a,
    Backtester.holdings_value self ds (Backtester._owned_shares st) 0 = Ok a
    /\ ~ Backtester.init_capital self == 0
    /\ st' = after_summary self ds a st.
Proof.
  unfold Backtester._summarize_day, Backtester.bindM, Backtester.get,
    Backtester.lift, Backtester.modify.
  destruct (Backtester.holdings_value self ds (Backtester._owned_shares st) 0)
    as [a | e]; [| discriminate].
  destruct (Qeq_bool (Backtester.init_capital self) 0) eqn:Hi; [discriminate |].
  intros [= <-]. exists a. apply Qeq_bool_neq in Hi. auto.
Qed.

(** A day that returns has left the series as the trading found them, with
    the day's three entries set by the summary. *)
Lemma day_ok (self : Backtester.backtester)
    (symbols_in_day : dict (list string)) (ds : Backtester.Timestamp)
    (st st' : Backtester.state) :
  Backtester.day self symbols_in_day ds st = (Ok tt, st') ->
  exists st1 a,
    same_snapshots st st1
    /\ Backtester.holdings_value self ds (Backtester._owned_shares st1) 0 = Ok a
    /\ ~ Backtester.init_capital self == 0
    /\ st' = after_summary self ds a st1.
Proof.
  change (Backtester.day self symbols_in_day ds)
    with (trading self symbols_in_day ds (Backtester._summarize_day self ds)).
  intros H. apply trading_ok in H. destruct H as (st1 & Ht & Hs).
  apply summarize_ok in Hs. destruct Hs as (a & Ha & Hi & ->).
  exists st1, a. split; [| auto].
  pose proof (keeps_trading same_snapshots same_snapshots_refl
                same_snapshots_trans
                (fun st m => same_snapshots_refl _)
                (fun st d => same_snapshots_refl _)
                (fun st id t => same_snapshots_refl _)
                self symbols_in_day ds (Backtester.ret tt)
                (keeps_ret _ same_snapshots_refl tt) st) as Hk.
  rewrite Ht in Hk. exact Hk.
Qed.

(** X8.  The snapshot of a day that completes: the account value recorded
    for the day is the value of the holdings left at the day's prices (the
    sum of [cnt * price]), the NAV recorded is that value plus the cash left,
    and the rate of return is [(NAV - init_capital) / init_capital * 100]. *)
Theorem day_snapshot :
  forall (self : Backtester.backtester) (symbols_in_day : dict (list string))
         (ds : Backtester.Timestamp) (st st' : Backtester.state),
    Backtester.day self symbols_in_day ds st = (Ok tt, st') ->
    exists a,
      Backtester.holdings_value self ds (Backtester._owned_shares st') 0 = Ok a
      /\ dict_get ds (Backtester._account_value st') = Some a
      /\ dict_get ds (Backtester._net_account_value st')
         = Some (a + Backtester._available_money st')
      /\ dict_get ds (Backtester._rate_of_return st')
         = Some (((a + Backtester._available_money st'
                   - Backtester.init_capital self)
                  / Backtester.init_capital self) * 100).
Proof.
  intros self sid ds st st' H. apply day_ok in H.
  destruct H as (st1 & a & _ & Ha & _ & ->). exists a.
  unfold after_summary. cbn. rewrite !dict_get_set_same. auto.
Qed.

Lemma day_snapshot_witness :
  let st' := snd (Backtester.run scenario (Some 1%Z) empty_state) in
  exists a,
    Backtester.holdings_value scenario "2010-09-28 00:00:00"%string
      (Backtester._owned_shares st') 0 = Ok a
    /\ a == 400
    /\ dict_get "2010-09-28 00:00:00" (Backtester._net_account_value st')
       = Some (a + Backtester._available_money st').
Proof.
  cbv zeta.
  destruct (day_snapshot scenario
              [("2010-09-28 00:00:00"%string, ["TEST_SIGS_1"%string])]
              "2010-09-28 00:00:00"%string (reset_state scenario)
              (snd (Backtester.run scenario (Some 1%Z) empty_state)))
    as (a & Ha & _ & Hnav & _).
  - vm_compute. reflexivity.
  - exists a. split; [exact Ha |]. split; [| exact Hnav].
    vm_compute in Ha. injection Ha as <-. reflexivity.
Defined.

Lemma dict_keys_set_fresh {V} (k : string) (v : V) (d : dict V) :
  dict_get k d = None -> dict_keys (dict_set k v d) = dict_keys d ++ [k].
Proof.
  intros H. rewrite (dict_set_fresh k v d H). unfold dict_keys.
  rewrite map_app. reflexivity.
Qed.

Lemma dict_keys_set_in {V} (k k' : string) (v : V) (d : dict V) :
  In k' (dict_keys (dict_set k v d)) <-> k' = k \/ In k' (dict_keys d).
Proof.
  destruct (dict_get k d) eqn:Hk.
  - rewrite dict_keys_set_present by congruence.
    split; [auto | intros [-> | H]; [| exact H]].
    destruct (in_dec string_dec k (dict_keys d)) as [Hin | Hout];
      [exact Hin |].
    apply dict_get_none in Hout. congruence.
  - rewrite dict_keys_set_fresh by exact Hk. rewrite in_app_iff. simpl.
    intuition.
Qed.

Lemma dict_keys_set_nodup {V} (k : string) (v : V) (d : dict V) :
  NoDup (dict_keys d) -> NoDup (dict_keys (dict_set k v d)).
Proof.
  intros H. destruct (dict_get k d) eqn:Hk.
  - rewrite dict_keys_set_present by congruence. exact H.
  - rewrite dict_keys_set_fresh by exact Hk.
    apply dict_get_none in Hk.
    apply NoDup_app; [exact H | repeat constructor; auto |].
    intros x Hx [<- | []]. contradiction.
Qed.

Lemma add_days_keys (sym : string) (dss : list Backtester.Timestamp) :
  forall sid,
    (NoDup (dict_keys sid) ->
     NoDup (dict_keys (Backtester.add_days sym dss sid)))
    /\ (forall ds, In ds (dict_keys (Backtester.add_days sym dss sid))
                   <-> In ds (dict_keys sid) \/ In ds dss).
Proof.
  induction dss as [| d dss IH]; intros sid; simpl.
  - split; [auto | intros ds; tauto].
  - destruct (dict_get d sid) as [l |];
      match goal with
      | |- context [Backtester.add_days sym dss ?sid'] =>
          destruct (IH sid') as [Hnd Hin]
      end;
      (split;
       [ intros H; apply Hnd, dict_keys_set_nodup, H
       | intros ds; rewrite Hin, dict_keys_set_in; intuition ]).
Qed.

Lemma collect_days_keys (self : Backtester.backtester)
    (items : list (string * dict (dict Q))) :
  forall sid sid',
    Backtester.collect_days self items sid = Ok sid' ->
    (NoDup (dict_keys sid) -> NoDup (dict_keys sid'))
    /\ (forall ds,
          In ds (dict_keys sid')
          <-> In ds (dict_keys sid)
              \/ exists sym cols col,
                   In (sym, cols) items
                   /\ dict_get (Backtester.price_label self) cols = Some col
                   /\ In ds (dict_keys col)).
Proof.
  induction items as [| [sym cols] items IH]; intros sid sid' H; simpl in H.
  - injection H as <-. split; [auto |].
    intros ds. split; [auto | intros [H | (s & c & col & [] & _)]; exact H].
  - unfold getitem in H.
    destruct (dict_get (Backtester.price_label self) cols) as [col |] eqn:Hcol;
      [| discriminate].
    simpl in H. apply IH in H. destruct H as [Hnd Hin].
    destruct (add_days_keys sym (dict_keys col) sid) as [Hnd0 Hin0].
    split; [auto |].
    intros ds. rewrite Hin, Hin0. split.
    + intros [[H | H] | (s & c & cl & Hi & Hc & Hd)]; [auto | |].
      * right. exists sym, cols, col. simpl. auto.
      * right. exists s, c, cl. simpl. auto.
    + intros [H | (s & c & cl & [Hi | Hi] & Hc & Hd)]; [auto | |].
      * injection Hi as <- <-. rewrite Hcol in Hc. injection Hc as <-. auto.
      * right. exists s, c, cl. auto.
Qed.

Lemma Sorted_firstn {A} (R : A -> A -> Prop) (l : list A) :
  Sorted R l -> forall n, Sorted R (firstn n l).
Proof.
  induction 1 as [| x l _ IH Hhd]; intros [| n]; simpl; try constructor.
  - apply IH.
  - destruct Hhd; destruct n; simpl; constructor. assumption.
Qed.

Lemma NoDup_firstn {A} (l : list A) (n : nat) : NoDup l -> NoDup (firstn n l).
Proof.
  intros H. rewrite <- (firstn_skipn n l) in H.
  apply NoDup_app_remove_r in H. exact H.
Qed.

Lemma simulated_days_firstn (test_days : option Z)
    (days : list Backtester.Timestamp) :
  exists n, simulated_days test_days days = firstn n days.
Proof.
  unfold simulated_days, Backtester.slice_to.
  destruct test_days as [n |]; [destruct (n =? 0)%Z |];
    try (exists (List.length days); symmetry; apply firstn_all).
  destruct (0 <=? n)%Z; eauto.
Qed.

Lemma rows_days (av nav ror : list (string * Q)) :
  dict_keys nav = dict_keys av -> dict_keys ror = dict_keys av ->
  map Backtester.row_ds (Backtester.rows av nav ror) = dict_keys av.
Proof.
  revert nav ror.
  induction av as [| [d a] av IH]; intros [| [d1 n] nav] [| [d2 r] ror];
    simpl; try discriminate; try reflexivity.
  intros [= _ H1] [= _ H2]. f_equal. apply IH; assumption.
Qed.

Lemma day_loop_series (self : Backtester.backtester)
    (symbols_in_day : dict (list string))
    (days : list Backtester.Timestamp) :
  forall (K : list string) (st st' : Backtester.state),
    Backtester.for_each (Backtester.day self symbols_in_day) days st
      = (Ok tt, st') ->
    dict_keys (Backtester._account_value st) = K ->
    dict_keys (Backtester._net_account_value st) = K ->
    dict_keys (Backtester._rate_of_return st) = K ->
    NoDup (K ++ days) ->
    dict_keys (Backtester._account_value st') = K ++ days
    /\ dict_keys (Backtester._net_account_value st') = K ++ days
    /\ dict_keys (Backtester._rate_of_return st') = K ++ days.
Proof.
  induction days as [| d days IH]; intros K st st' H Hav Hnav Hror Hnd.
  - injection H as <-. rewrite app_nil_r. auto.
  - apply for_each_ok_cons in H. destruct H as (st1 & Hday & Hrest).
    apply day_ok in Hday.
    destruct Hday as (st0 & a & (Ea & En & Er) & _ & _ & ->).
    assert (Hfresh : ~ In d K).
    { apply NoDup_remove_2 in Hnd. rewrite in_app_iff in Hnd. tauto. }
    replace (K ++ d :: days) with ((K ++ [d]) ++ days) in *
      by (rewrite <- app_assoc; reflexivity).
    apply (IH (K ++ [d])) in Hrest; [exact Hrest | | | | exact Hnd];
      unfold after_summary;
      cbn [Backtester._account_value Backtester._net_account_value
             Backtester._rate_of_return];
      [rewrite Ea | rewrite En | rewrite Er];
      (rewrite dict_keys_set_fresh;
       [first [rewrite Hav | rewrite Hnav | rewrite Hror]; reflexivity
       | apply dict_get_none;
         first [rewrite Hav | rewrite Hnav | rewrite Hror]; exact Hfresh]).
Qed.

Lemma run_ok (self : Backtester.backtester) (test_days : option Z)
    (st : Backtester.state) (series : list Backtester.row)
    (trades : dict Backtester.trade) :
  fst (Backtester.run self test_days st) = Ok (series, trades) ->
  exists sid st',
    Backtester.collect_days self (Backtester.signals self) [] = Ok sid
    /\ Backtester.for_each (Backtester.day self sid)
         (simulated_days test_days
            (stable_sort String.leb (dict_keys sid)))
         (reset_state self) = (Ok tt, st')
    /\ series = Backtester._run_output st'
    /\ trades = Backtester._trades st'.
Proof.
  unfold Backtester.run, Backtester.bindM at 1.
  unfold Backtester._reset_backtest_state, Backtester.modify.
  fold (reset_state self).
  unfold Backtester.bindM at 1, Backtester.lift.
  destruct (Backtester.collect_days self (Backtester.signals self) [])
    as [sid | e]; [| discriminate].
  fold (simulated_days test_days (stable_sort String.leb (dict_keys sid))).
  unfold Backtester.bindM at 1.
  destruct (Backtester.for_each _ _ _) as [[[] | e] st'] eqn:Hloop;
    [| discriminate].
  unfold Backtester.bindM, Backtester.get, Backtester.ret. simpl.
  intros [= <- <-]. exists sid, st'. auto.
Qed.

(** X9.  The valuation series of a run that returns has exactly one row
    per simulated day, in ascending order of the days: the calendar is the
    set of days on which some symbol has a price, each taken once and sorted,
    and the rows are those days, cut to the first [test_days] of them when
    [test_days] is given. *)
Theorem run_one_row_per_day :
  forall (self : Backtester.backtester) (test_days : option Z)
         (st : Backtester.state) (series : list Backtester.row)
         (trades : dict Backtester.trade),
    fst (Backtester.run self test_days st) = Ok (series, trades) ->
    exists days,
      (forall ds, In ds days <-> has_price self ds)
      /\ NoDup days
      /\ Sorted (fun a b => String.leb a b = true) days
      /\ map Backtester.row_ds series = simulated_days test_days days.
Proof.
  intros self test_days st series trades H.
  apply run_ok in H. destruct H as (sid & st' & Hsid & Hloop & -> & _).
  apply collect_days_keys in Hsid. destruct Hsid as [Hnd Hin].
  specialize (Hnd (NoDup_nil _)).
  set (days := stable_sort String.leb (dict_keys sid)) in *.
  assert (Hdays_nd : NoDup days)
    by (eapply Permutation_NoDup; [apply stable_sort_perm | exact Hnd]).
  exists days. split; [| split; [exact Hdays_nd | split]].
  - intros ds. unfold has_price. split.
    + intros Hd.
      assert (Hk : In ds (dict_keys sid))
        by (eapply Permutation_in;
            [symmetry; apply stable_sort_perm | exact Hd]).
      apply Hin in Hk. destruct Hk as [[] | Hk]. exact Hk.
    + intros Hp. eapply Permutation_in; [apply stable_sort_perm |].
      apply Hin. right. exact Hp.
  - apply stable_sort_sorted. intros a b. apply String.leb_total.
  - destruct (simulated_days_firstn test_days days) as [n Hn].
    apply (day_loop_series self sid _ []) in Hloop;
      [| reflexivity | reflexivity | reflexivity
       | simpl; rewrite Hn; apply NoDup_firstn, Hdays_nd].
    destruct Hloop as (Hav & Hnav & Hror). simpl in Hav, Hnav, Hror.
    unfold Backtester._run_output. rewrite rows_days; congruence.
Qed.

Lemma run_one_row_per_day_witness :
  exists series trades days,
    fst (Backtester.run scenario (Some 2%Z) empty_state) = Ok (series, trades)
    /\ NoDup days
    /\ map Backtester.row_ds series = simulated_days (Some 2%Z) days.
Proof.
  destruct (fst (Backtester.run scenario (Some 2%Z) empty_state))
    as [[series trades] | e] eqn:Hr.
  - destruct (run_one_row_per_day scenario (Some 2%Z) empty_state series
                trades Hr) as (days & _ & Hnd & _ & Hrows).
    exists series, trades, days. auto.
  - vm_compute in Hr. discriminate.
Defined.

(* ================================================================= *)
(** ** Exceptions of a day *)

Lemma getitem_raise {V} (d : dict V) (k : string) (e : exn) :
  getitem d k = Raise e -> e = KeyError.
Proof.
  unfold getitem. destruct (dict_get k d); [discriminate |].
  intros [= <-]. reflexivity.
Qed.

Lemma signal_raise (self : Backtester.backtester) (symbol column : string)
    (ds : Backtester.Timestamp) (e : exn) :
  Backtester.signal self symbol column ds = Raise e -> e = KeyError.
Proof.
  unfold Backtester.signal.
  destruct (getitem (Backtester.signals self) symbol) as [sym_v | e1] eqn:H1;
    simpl; [| intros [= <-]; eapply getitem_raise; exact H1].
  destruct (getitem sym_v column) as [col | e2] eqn:H2; simpl;
    [| intros [= <-]; eapply getitem_raise; exact H2].
  apply getitem_raise.
Qed.

Lemma prices_of_raise (self : Backtester.backtester) (symbol : string)
    (e : exn) :
  Backtester.prices_of self symbol = Raise e -> e = KeyError.
Proof.
  unfold Backtester.prices_of.
  destruct (getitem (Backtester.signals self) symbol) as [sym_v | e1] eqn:H1;
    simpl; [| intros [= <-]; eapply getitem_raise; exact H1].
  apply getitem_raise.
Qed.

Lemma sell_raise (self : Backtester.backtester) (symbol : string)
    (exit_type : EntryType) (prices : dict Q) (ds : Backtester.Timestamp)
    (st : Backtester.state) (e : exn) :
  fst (Backtester._sell self symbol exit_type prices ds st) = Raise e ->
  e = KeyError.
Proof.
  unfold Backtester._sell, Backtester.bindM, Backtester.lift, Backtester.get,
    Backtester.modify.
  destruct (getitem prices ds) as [p | e1] eqn:H1;
    [| intros [= <-]; eapply getitem_raise; exact H1].
  destruct (getitem (Backtester._owned_shares st) symbol) as [h | e2] eqn:H2;
    [| intros [= <-]; eapply getitem_raise; exact H2].
  cbn [Backtester._trades Backtester.set_available_money].
  destruct (getitem (Backtester._trades st) (Backtester.trx_id h))
    as [t | e3] eqn:H3;
    [discriminate | intros [= <-]; eapply getitem_raise; exact H3].
Qed.

Lemma exit_check_raise (self : Backtester.backtester)
    (ds : Backtester.Timestamp) (symbol : string) (st : Backtester.state)
    (e : exn) :
  fst (Backtester.exit_check self ds symbol st) = Raise e -> e = KeyError.
Proof.
  unfold Backtester.exit_check, Backtester.bindM at 1, Backtester.lift at 1.
  destruct (Backtester.signal self symbol "exit_long" ds) as [el | e1] eqn:H1;
    [| intros [= <-]; eapply signal_raise; exact H1].
  assert (Hsell : forall exit_type,
             fst (Backtester.bindM
                    (Backtester.lift (Backtester.prices_of self symbol))
                    (fun prices =>
                       Backtester._sell self symbol exit_type prices ds) st)
             = Raise e -> e = KeyError).
  { intros exit_type. unfold Backtester.bindM, Backtester.lift.
    destruct (Backtester.prices_of self symbol) as [prices | e2] eqn:H2;
      [apply sell_raise | intros [= <-]; eapply prices_of_raise; exact H2]. }
  destruct (Qeq_bool el 1); [apply Hsell |].
  unfold Backtester.bindM at 1, Backtester.lift at 1.
  destruct (Backtester.signal self symbol "exit_short" ds) as [es | e3] eqn:H3;
    [| intros [= <-]; eapply signal_raise; exact H3].
  destruct (Qeq_bool es 1); [apply Hsell | discriminate].
Qed.

Lemma exit_pass_missing_data (self : Backtester.backtester)
    (ds : Backtester.Timestamp) (symbol : string) (e : exn) :
  Backtester.signal self symbol "exit_long" ds = Raise e ->
  forall (held : list string) (st : Backtester.state),
    In symbol held ->
    fst (Backtester.for_each (Backtester.exit_check self ds) held st)
    = Raise KeyError.
Proof.
  intros Hsig. induction held as [| x held IH]; intros st Hin;
    [destruct Hin |]. destruct Hin as [-> | Hin]; simpl.
  - unfold Backtester.bindM, Backtester.exit_check at 1.
    unfold Backtester.bindM, Backtester.lift. rewrite Hsig.
    apply signal_raise in Hsig. subst e. reflexivity.
  - unfold Backtester.bindM.
    destruct (Backtester.exit_check self ds x st) as [[[] | e1] st1] eqn:Hx.
    + apply IH. exact Hin.
    + pose proof (exit_check_raise self ds x st e1) as He.
      rewrite Hx in He. rewrite (He eq_refl). reflexivity.
Qed.

(** X10.  The calendar is the union of the symbols' days, but a held symbol
    needs data on every day that is processed: when a symbol that is held has
    no [exit_long] entry for the day, the day's exit pass raises [KeyError]
    (and the day gets no snapshot). *)
Theorem day_raises_on_missing_data :
  forall (self : Backtester.backtester) (symbols_in_day : dict (list string))
         (ds : Backtester.Timestamp) (st : Backtester.state) (symbol : string),
    In symbol (dict_keys (Backtester._owned_shares st)) ->
    Backtester.signal self symbol "exit_long" ds = Raise KeyError ->
    fst (Backtester.day self symbols_in_day ds st) = Raise KeyError
    /\ same_snapshots st (snd (Backtester.day self symbols_in_day ds st)).
Proof.
  intros self sid ds st symbol Hheld Hsig. split.
  - unfold Backtester.day, Backtester.bindM at 1, Backtester.get.
    unfold Backtester.bindM at 1.
    pose proof (exit_pass_missing_data self ds symbol KeyError Hsig
                  (dict_keys (Backtester._owned_shares st)) st Hheld) as H.
    destruct (Backtester.for_each _ _ _) as [[[] | e] st1];
      simpl in H; [discriminate | injection H as ->; reflexivity].
  - change (Backtester.day self sid ds)
      with (trading self sid ds (Backtester._summarize_day self ds)).
    pose proof (exit_pass_missing_data self ds symbol KeyError Hsig
                  (dict_keys (Backtester._owned_shares st)) st Hheld) as H.
    pose proof (keeps_for_each same_snapshots same_snapshots_refl
                  same_snapshots_trans (Backtester.exit_check self ds)
                  (dict_keys (Backtester._owned_shares st))
                  (fun x => keeps_exit_check same_snapshots same_snapshots_refl
                              same_snapshots_trans
                              (fun st m => same_snapshots_refl _)
                              (fun st d => same_snapshots_refl _)
                              (fun st id t => same_snapshots_refl _)
                              self ds x) st) as Hk.
    unfold trading, Backtester.bindM at 1, Backtester.get.
    unfold Backtester.bindM at 1.
    destruct (Backtester.for_each _ _ _) as [[[] | e] st1];
      simpl in H; [discriminate | exact Hk].
Qed.

Lemma day_raises_on_missing_data_witness :
  let st := snd (Backtester.run misaligned (Some 1%Z) empty_state) in
  In "A"%string (dict_keys (Backtester._owned_shares st))
  /\ fst (Backtester.day misaligned [] "2020-01-02 00:00:00"%string st)
     = Raise KeyError.
Proof.
  cbv zeta. split; [left; reflexivity |].
  apply (day_raises_on_missing_data misaligned []
           "2020-01-02 00:00:00"%string
           (snd (Backtester.run misaligned (Some 1%Z) empty_state))
           "A"%string).
  - left. reflexivity.
  - reflexivity.
Defined.

(** X11.  [init_capital = 0] makes every day fail at its summary (the rate
    of return divides by the initial capital): a run with no initial capital
    returns only when there is no day to simulate, with an empty series. *)
Theorem run_without_capital :
  forall (self : Backtester.backtester) (test_days : option Z)
         (st : Backtester.state) (series : list Backtester.row)
         (trades : dict Backtester.trade),
    Backtester.init_capital self == 0 ->
    fst (Backtester.run self test_days st) = Ok (series, trades) ->
    series = [] /\ trades = [].
Proof.
  intros self test_days st series trades Hzero H.
  apply run_ok in H. destruct H as (sid & st' & _ & Hloop & -> & ->).
  destruct (simulated_days test_days _) as [| d days].
  - injection Hloop as <-. split; reflexivity.
  - apply for_each_ok_cons in Hloop. destruct Hloop as (st1 & Hday & _).
    apply day_ok in Hday. destruct Hday as (_ & _ & _ & _ & Hne & _).
    contradiction.
Qed.

Lemma run_without_capital_witness :
  fst (Backtester.run (Backtester.init [] "close" 0) None empty_state)
  = Ok ([], [])
  /\ ([] : list Backtester.row) = [] /\ ([] : dict Backtester.trade) = [].
Proof.
  split; [reflexivity |].
  apply (run_without_capital (Backtester.init [] "close" 0) None empty_state
           [] []); reflexivity.
Defined.

(* ================================================================= *)
(** ** The candidate pass *)

Lemma picked_snoc {A B} (R : A -> B -> Prop) (pre : list A) (a : A) :
  forall fs, picked R pre fs ->
  (picked R (pre ++ [a]) fs)
  /\ (forall f, R a f -> picked R (pre ++ [a]) (fs ++ [f])).
Proof.
  induction 1 as [| x l fs _ [IH1 IH2] | x g l fs Hx _ [IH1 IH2]]; simpl.
  - split; [apply picked_skip; constructor |].
    intros f Hf. apply picked_take; [exact Hf | constructor].
  - split; [apply picked_skip; exact IH1 |].
    intros f Hf. apply picked_skip. apply IH2. exact Hf.
  - split; [apply picked_take; [exact Hx | exact IH1] |].
    intros f Hf. apply picked_take; [exact Hx | apply IH2; exact Hf].
Qed.

Lemma collect_candidates_picked (self : Backtester.backtester)
    (ds : Backtester.Timestamp) (syms : list string) :
  forall pre acc cs,
    picked (candidate_of self ds) pre acc ->
    Backtester.collect_candidates self ds syms acc = Ok cs ->
    picked (candidate_of self ds) (pre ++ syms) cs.
Proof.
  induction syms as [| sym syms IH]; intros pre acc cs Hacc H; simpl in H.
  - injection H as <-. rewrite app_nil_r. exact Hacc.
  - replace (pre ++ sym :: syms) with ((pre ++ [sym]) ++ syms)
      by (rewrite <- app_assoc; reflexivity).
    destruct (picked_snoc _ pre sym acc Hacc) as [Hskip Htake].
    destruct (Backtester.signal self sym "entry_long" ds) as [el | e] eqn:Hel;
      simpl in H; [| discriminate].
    destruct (Qeq_bool el 1) eqn:Hel1.
    + unfold Backtester._define_candidate in H.
      destruct (Backtester.signal self sym (Backtester.price_label self) ds)
        as [p | e] eqn:Hp; simpl in H; [| discriminate].
      apply (IH (pre ++ [sym])) in H; [exact H |].
      apply Htake. split; [reflexivity |]. split; [exact Hp |].
      exists el. split; [exact Hel |]. left.
      apply Qeq_bool_iff in Hel1. auto.
    + destruct (Backtester.signal self sym "entry_short" ds)
        as [es | e] eqn:Hes; simpl in H; [| discriminate].
      destruct (Qeq_bool es 1) eqn:Hes1.
      * unfold Backtester._define_candidate in H.
        destruct (Backtester.signal self sym (Backtester.price_label self) ds)
          as [p | e] eqn:Hp; simpl in H; [| discriminate].
        apply (IH (pre ++ [sym])) in H; [exact H |].
        apply Htake. split; [reflexivity |]. split; [exact Hp |].
        exists el. split; [exact Hel |]. right.
        apply Qeq_bool_neq in Hel1. apply Qeq_bool_iff in Hes1.
        split; [exact Hel1 |]. split; [reflexivity |]. exists es. auto.
      * apply (IH (pre ++ [sym])) in H; [exact H | exact Hskip].
Qed.

Lemma collect_candidates_long (self : Backtester.backtester)
    (ds : Backtester.Timestamp) (sym : string) (el : Q) (syms : list string) :
  Backtester.signal self sym "entry_long" ds = Ok el -> el == 1 ->
  In sym syms ->
  forall acc cs,
    Backtester.collect_candidates self ds syms acc = Ok cs ->
    exists p, In {| Backtester.symbol := sym;
                    Backtester.entry_type := long;
                    Backtester.price := p |} cs.
Proof.
  intros Hel Hel1.
  assert (Hmono : forall syms acc cs c,
             Backtester.collect_candidates self ds syms acc = Ok cs ->
             In c acc -> In c cs).
  { clear. induction syms as [| s syms IH]; intros acc cs c H Hc; simpl in H.
    - injection H as <-. exact Hc.
    - destruct (Backtester.signal self s "entry_long" ds) as [el | e];
        simpl in H; [| discriminate].
      destruct (Qeq_bool el 1).
      + destruct (Backtester._define_candidate self s ds long) as [c1 | e];
          simpl in H; [| discriminate].
        eapply IH; [exact H | apply in_or_app; auto].
      + destruct (Backtester.signal self s "entry_short" ds) as [es | e];
          simpl in H; [| discriminate].
        destruct (Qeq_bool es 1); [| eapply IH; eassumption].
        destruct (Backtester._define_candidate self s ds short) as [c1 | e];
          simpl in H; [| discriminate].
        eapply IH; [exact H | apply in_or_app; auto]. }
  induction syms as [| s syms IH]; intros Hin acc cs H; [destruct Hin |].
  destruct Hin as [-> | Hin]; simpl in H.
  - rewrite Hel in H. simpl in H.
    apply Qeq_bool_iff in Hel1. rewrite Hel1 in H.
    unfold Backtester._define_candidate in H.
    destruct (Backtester.signal self sym (Backtester.price_label self) ds)
      as [p | e]; simpl in H; [| discriminate].
    exists p. eapply Hmono; [exact H |]. apply in_or_app. right. left.
    reflexivity.
  - destruct (Backtester.signal self s "entry_long" ds) as [el' | e];
      simpl in H; [| discriminate].
    destruct (Qeq_bool el' 1).
    + destruct (Backtester._define_candidate self s ds long) as [c1 | e];
        simpl in H; [| discriminate].
      eapply IH; eassumption.
    + destruct (Backtester.signal self s "entry_short" ds) as [es | e];
        simpl in H; [| discriminate].
      destruct (Qeq_bool es 1); [| eapply IH; eassumption].
      destruct (Backtester._define_candidate self s ds short) as [c1 | e];
        simpl in H; [| discriminate].
      eapply IH; eassumption.
Qed.

(** X12.  The candidate pass: the candidates are made in the order of the
    day's symbols, at most one per symbol, each at the symbol's price of the
    day; a candidate is long exactly when the symbol's [entry_long] is 1, and
    short only when [entry_long] is not 1 and [entry_short] is.  In
    particular a symbol whose [entry_long] is 1 is offered long whatever its
    [entry_short] flag (long wins a tie). *)
Theorem candidates_long_first :
  forall (self : Backtester.backtester) (ds : Backtester.Timestamp)
         (syms : list string) (cs : list Backtester.candidate),
    Backtester.collect_candidates self ds syms [] = Ok cs ->
    picked (candidate_of self ds) syms cs
    /\ (forall sym el,
          In sym syms ->
          Backtester.signal self sym "entry_long" ds = Ok el -> el == 1 ->
          exists p, In {| Backtester.symbol := sym;
                          Backtester.entry_type := long;
                          Backtester.price := p |} cs).
Proof.
  intros self ds syms cs H. split.
  - apply (collect_candidates_picked self ds syms [] [] cs);
      [constructor | exact H].
  - intros sym el Hin Hel Hel1.
    eapply collect_candidates_long; eassumption.
Qed.

Lemma candidates_long_first_witness :
  Backtester.collect_candidates both_entries "2020-01-01 00:00:00"%string
    ["A"%string] []
  = Ok [{| Backtester.symbol := "A";
           Backtester.entry_type := long;
           Backtester.price := 100 |}]
  /\ picked (candidate_of both_entries "2020-01-01 00:00:00"%string) ["A"%string]
       [{| Backtester.symbol := "A";
           Backtester.entry_type := long;
           Backtester.price := 100 |}].
Proof.
  split; [reflexivity |].
  apply (proj1 (candidates_long_first both_entries
                  "2020-01-01 00:00:00"%string ["A"%string] _ eq_refl)).
Defined.

(* ================================================================= *)
(** ** A position from entry to exit *)

Lemma buy_runs (trx : Backtester.fill) (ds : Backtester.Timestamp)
    (st : Backtester.state) :
  Backtester._buy trx ds st
  = (Ok tt,
     {| Backtester._owned_shares :=
          dict_set (Backtester.f_symbol trx)
            {| Backtester.cnt := held_count trx;
               Backtester.trx_id := trade_id ds trx |}
            (Backtester._owned_shares st);
        Backtester._available_money :=
          match Backtester.f_entry_type trx with
          | long => Backtester._available_money st
                    - (Backtester.trx_value trx + Backtester.fee trx)
          | short => Backtester._available_money st
                     + (Backtester.trx_value trx - Backtester.fee trx)
          end;
        Backtester._trades :=
          dict_set (trade_id ds trx)
            {| Backtester.buy_ds := ds;
               Backtester.type := Backtester.f_entry_type trx;
               Backtester.trx_value_no_fee := Backtester.trx_value trx;
               Backtester.trx_value_gross :=
                 match Backtester.f_entry_type trx with
                 | long => Backtester.trx_value trx + Backtester.fee trx
                 | short => Backtester.trx_value trx - Backtester.fee trx
                 end;
               Backtester.sell_ds := None;
               Backtester.sell_value_no_fee := None;
               Backtester.sell_value_gross := None |}
            (Backtester._trades st);
        Backtester._account_value := Backtester._account_value st;
        Backtester._net_account_value := Backtester._net_account_value st;
        Backtester._rate_of_return := Backtester._rate_of_return st |}).
Proof.
  unfold Backtester._buy, Backtester.bindM, Backtester.modify, held_count,
    trade_id.
  destruct (Backtester.f_entry_type trx); reflexivity.
Qed.

(** X13.  A position from entry to exit: a fill bought for a symbol that
    was not held, then sold with the exit type [exit_type] at the price [p],
    leaves the holdings as they were before the buy; the cash has changed by
    what the buy charged or credited plus [count * p - fee] (long exit) or
    [count * p + fee] (short exit), [count] being the signed share count held
    and the fee that of [count * p]; and the trade of the buy is in the
    ledger, closed, with both its buy and its sell fields. *)
Theorem buy_then_sell :
  forall (self : Backtester.backtester) (trx : Backtester.fill)
         (ds ds' : Backtester.Timestamp) (exit_type : EntryType)
         (prices : dict Q) (p : Q) (st : Backtester.state),
    dict_get (Backtester.f_symbol trx) (Backtester._owned_shares st) = None ->
    getitem prices ds' = Ok p ->
    exists st' t,
      Backtester.bindM (Backtester._buy trx ds)
        (fun _ => Backtester._sell self (Backtester.f_symbol trx) exit_type
                    prices ds') st
      = (Ok tt, st')
      /\ Backtester._owned_shares st' = Backtester._owned_shares st
      /\ Backtester._available_money st'
         == Backtester._available_money st + buy_cash trx
            + sell_cash self exit_type (held_count trx) p
      /\ dict_get (trade_id ds trx) (Backtester._trades st') = Some t
      /\ Backtester.buy_ds t = ds
      /\ Backtester.type t = Backtester.f_entry_type trx
      /\ Backtester.trx_value_no_fee t = Backtester.trx_value trx
      /\ Backtester.sell_ds t = Some ds'
      /\ Backtester.sell_value_no_fee t
         = Some (inject_Z (held_count trx) * p)
      /\ Backtester.sell_value_gross t
         = Some (sell_cash self exit_type (held_count trx) p).
Proof.
  intros self trx ds ds' exit_type prices p st Hfresh Hp.
  unfold Backtester.bindM at 1. rewrite buy_runs.
  erewrite sell_runs;
    [ | exact Hp
      | cbn [Backtester._owned_shares]; unfold getitem;
        rewrite dict_get_set_same; reflexivity
      | cbn [Backtester._trades Backtester.trx_id]; unfold getitem;
        rewrite dict_get_set_same; reflexivity ].
  eexists. eexists. split; [reflexivity |].
  unfold after_sell.
  cbn [Backtester._owned_shares Backtester._available_money
         Backtester._trades Backtester.cnt Backtester.trx_id].
  split; [apply dict_pop_set_fresh; exact Hfresh |].
  split.
  { unfold buy_cash, sell_cash.
    destruct (Backtester.f_entry_type trx), exit_type; lra. }
  rewrite dict_get_set_same.
  split; [reflexivity |].
  unfold Backtester.trade_update, sell_cash.
  cbn [Backtester.buy_ds Backtester.type Backtester.trx_value_no_fee
         Backtester.sell_ds Backtester.sell_value_no_fee
         Backtester.sell_value_gross].
  repeat split; destruct exit_type; reflexivity.
Qed.

Lemma buy_then_sell_witness :
  let trx := {| Backtester.f_symbol := "A";
                Backtester.f_entry_type := long;
                Backtester.shares_count := 4;
                Backtester.f_price := 100;
                Backtester.trx_value := 400;
                Backtester.fee := 4 |} in
  let st := Backtester.set_available_money 500 empty_state in
  exists st',
    Backtester.bindM (Backtester._buy trx "2020-01-01 00:00:00"%string)
      (fun _ => Backtester._sell scenario "A" long
                  [("2020-01-02 00:00:00"%string, 210)]
                  "2020-01-02 00:00:00"%string) st
    = (Ok tt, st')
    /\ Backtester._owned_shares st' = []
    /\ Backtester._available_money st' == 932.
Proof.
  cbv zeta.
  destruct (buy_then_sell scenario
              {| Backtester.f_symbol := "A";
                 Backtester.f_entry_type := long;
                 Backtester.shares_count := 4;
                 Backtester.f_price := 100;
                 Backtester.trx_value := 400;
                 Backtester.fee := 4 |}
              "2020-01-01 00:00:00"%string "2020-01-02 00:00:00"%string long
              [("2020-01-02 00:00:00"%string, 210)] 210
              (Backtester.set_available_money 500 empty_state)
              eq_refl eq_refl)
    as (st' & t & Hrun & Howned & Hcash & _).
  exists st'. split; [exact Hrun |]. split; [exact Howned |].
  rewrite Hcash. vm_compute. reflexivity.
Defined.

(* ================================================================= *)
(** ** Support and resistance *)

Lemma max_from_below (l : list Q) :
  forall m p, Rules.max_from m l < p <-> m < p /\ Forall (fun v => v < p) l.
Proof.
  induction l as [| x l IH]; intros m p; simpl.
  - split; [intros H; split; [exact H | constructor] | tauto].
  - rewrite IH. split.
    + intros [H1 H2]. destruct (Qlt_le_dec m x).
      * split; [lra | constructor; assumption].
      * split; [exact H1 | constructor; [lra | exact H2]].
    + intros [H1 H2]. inversion H2 as [| v l' Hx Hl]; subst.
      destruct (Qlt_le_dec m x); auto.
Qed.

Lemma min_from_above (l : list Q) :
  forall m p, p < Rules.min_from m l <-> p < m /\ Forall (fun v => p < v) l.
Proof.
  induction l as [| x l IH]; intros m p; simpl.
  - split; [intros H; split; [exact H | constructor] | tauto].
  - rewrite IH. split.
    + intros [H1 H2]. destruct (Qlt_le_dec x m).
      * split; [lra | constructor; assumption].
      * split; [exact H1 | constructor; [lra | exact H2]].
    + intros [H1 H2]. inversion H2 as [| v l' Hx Hl]; subst.
      destruct (Qlt_le_dec x m); auto.
Qed.

Lemma last_snoc {A} (l : list A) (a d : A) : last (l ++ [a]) d = a.
Proof.
  induction l as [| x l IH]; [reflexivity |].
  simpl. destruct (l ++ [a]) eqn:E; [destruct l; discriminate | exact IH].
Qed.

Lemma removelast_snoc {A} (l : list A) (a : A) : removelast (l ++ [a]) = l.
Proof.
  induction l as [| x l IH]; [reflexivity |].
  simpl. destruct (l ++ [a]) eqn:E; [destruct l; discriminate |].
  rewrite IH. reflexivity.
Qed.

(** The global definition: the smallest and the largest of the window. *)
Lemma find_global (x : Q) (y : list Q) (e : Z) :
  e = 0%Z \/ (Z.of_nat (List.length (x :: y)) < e)%Z ->
  Rules._find_support_resistance (x :: y) e
  = Rules.Return (Rules.min_from x y, Rules.max_from x y).
Proof.
  intros He. unfold Rules._find_support_resistance.
  assert (Hb : ((e =? 0) || (Z.of_nat (List.length (x :: y)) <? e))%Z%bool
               = true).
  { apply Bool.orb_true_iff. destruct He as [-> | He];
      [left; reflexivity | right; apply Z.ltb_lt; exact He]. }
  rewrite Hb. reflexivity.
Qed.

(** X14.  Without [e] (or with [e] above the number of earlier prices)
    and without the band filter, [support_resistance] signals a breakout of
    the last price from all the earlier ones: it returns 1 exactly when the
    last price is above every earlier price, -1 exactly when it is below
    every earlier price, and 0 otherwise. *)
Theorem support_resistance_breakout :
  forall (y : list Q) (price : Q) (e : Z),
    y <> [] ->
    e = 0%Z \/ (Z.of_nat (List.length y) < e)%Z ->
    (Rules.support_resistance (y ++ [price]) e 0 = Rules.Return 1%Z
     <-> Forall (fun v => v < price) y)
    /\ (Rules.support_resistance (y ++ [price]) e 0 = Rules.Return (-1)%Z
        <-> Forall (fun v => price < v) y)
    /\ (Rules.support_resistance (y ++ [price]) e 0 = Rules.Return 0%Z
        <-> ~ Forall (fun v => v < price) y
            /\ ~ Forall (fun v => price < v) y).
Proof.
  intros y price e Hy He.
  assert (Hsr : Rules.support_resistance (y ++ [price]) e 0
                = Rules.bind (Rules._find_support_resistance y e)
                    (fun sr =>
                       let (support, resistance) := sr in
                       if Qlt_le_dec resistance price then Rules.Return 1%Z
                       else if Qlt_le_dec price support
                            then Rules.Return (-1)%Z
                            else Rules.Return 0%Z)).
  { unfold Rules.support_resistance.
    destruct (y ++ [price]) eqn:E; [destruct y; discriminate |].
    rewrite <- E, last_snoc, removelast_snoc. reflexivity. }
  rewrite Hsr. clear Hsr.
  destruct y as [| x y]; [contradiction |].
  rewrite (find_global x y e He). cbn [Rules.bind].
  pose proof (max_from_below y x price) as Hmax.
  pose proof (min_from_above y x price) as Hmin.
  assert (Hall1 : Forall (fun v => v < price) (x :: y)
                  <-> Rules.max_from x y < price).
  { rewrite Hmax. split; [intros H; inversion H; auto |].
    intros [H1 H2]. constructor; assumption. }
  assert (Hall2 : Forall (fun v => price < v) (x :: y)
                  <-> price < Rules.min_from x y).
  { rewrite Hmin. split; [intros H; inversion H; auto |].
    intros [H1 H2]. constructor; assumption. }
  assert (Hexcl : Rules.max_from x y < price -> price < Rules.min_from x y
                  -> False).
  { intros H1 H2. apply Hmax in H1. apply Hmin in H2. lra. }
  rewrite Hall1, Hall2.
  destruct (Qlt_le_dec (Rules.max_from x y) price) as [H1 | H1];
    [| destruct (Qlt_le_dec price (Rules.min_from x y)) as [H2 | H2]].
  all: repeat split; intros; try congruence; try assumption; try tauto;
    try lra; try (exfalso; eauto; fail).
Qed.

Lemma support_resistance_breakout_witness :
  Forall (fun v => v < 5) [1; 3; 2]
  /\ Rules.support_resistance ([1; 3; 2] ++ [5]) 0 0 = Rules.Return 1%Z.
Proof.
  assert (H : Forall (fun v => v < 5) [1; 3; 2])
    by (repeat constructor).
  split; [exact H |].
  apply (proj1 (support_resistance_breakout [1; 3; 2] 5 0
                  ltac:(discriminate) (or_introl eq_refl))).
  exact H.
Defined.

(** X15.  [support_resistance] needs two prices: on an empty array it
    raises [IndexError], and on an array of one price [ValueError] (there is
    no earlier price to take a minimum or a maximum of), whatever [e] and
    [b]. *)
Theorem support_resistance_short_input :
  forall (e : Z) (b : Q),
    Rules.support_resistance [] e b = Rules.Raises Rules.IndexError
    /\ forall x, Rules.support_resistance [x] e b
                 = Rules.Raises Rules.ValueError.
Proof.
  intros e b. split; [reflexivity |]. intros x.
  unfold Rules.support_resistance, Rules._find_support_resistance.
  cbn [removelast List.length Z.of_nat].
  destruct ((e =? 0) || (0 <? e))%Z%bool; reflexivity.
Qed.

Lemma where_none (cond : nat -> bool) (counts : list nat) :
  Forall (fun n => cond n = false) counts -> Rules.where_ cond counts = [].
Proof.
  unfold Rules.where_, Rules.enumerate.
  generalize (seq 0 (List.length counts)) as idxs.
  induction counts as [| n counts IH]; intros idxs H; destruct idxs as [| i idxs];
    try reflexivity.
  inversion H as [| n' l Hn Hl]; subst. simpl. rewrite Hn. apply IH, Hl.
Qed.

Lemma times_smaller_le (y : list Q) (i : nat) (x : Q) :
  (Rules.times_smaller y i x <= i)%nat.
Proof.
  unfold Rules.times_smaller.
  eapply Nat.le_trans; [apply filter_length_le | apply firstn_le_length].
Qed.

(** The local definition finds no resistance when no price of the window
    has more than [e] smaller prices before it. *)
Lemma find_local_raises (y : list Q) (e : Z) :
  (0 < e)%Z -> (e <= Z.of_nat (List.length y))%Z ->
  Forall (fun ix => (Z.of_nat (Rules.times_smaller y (fst ix) (snd ix)) <= e)%Z)
    (Rules.enumerate y) ->
  Rules._find_support_resistance y e = Rules.Raises Rules.ValueError.
Proof.
  intros He Hlen Hcounts. unfold Rules._find_support_resistance.
  assert (Hb : ((e =? 0) || (Z.of_nat (List.length y) <? e))%Z%bool = false).
  { apply Bool.orb_false_iff. split; [apply Z.eqb_neq | apply Z.ltb_ge]; lia. }
  rewrite Hb.
  destruct y as [| x y]; [simpl in Hlen; lia |].
  set (counts := map (fun ix => Rules.times_smaller (x :: y) (fst ix) (snd ix))
                   (Rules.enumerate (x :: y))) in *.
  assert (Hsupport : exists i,
             Rules.max_index
               (Rules.where_ (fun n => (Z.of_nat n <? e)%Z) counts)
             = Rules.Return i).
  { unfold counts, Rules.where_, Rules.enumerate. simpl.
    assert (H0 : (0 <? e)%Z = true) by (apply Z.ltb_lt; exact He).
    rewrite H0. simpl. eauto. }
  destruct Hsupport as [i ->]. cbn [Rules.bind].
  rewrite where_none; [reflexivity |].
  unfold counts. apply Forall_map.
  eapply Forall_impl; [| exact Hcounts].
  intros ix Hix. apply Z.ltb_ge. exact Hix.
Qed.

(** X16.  With [e] set (and not above the number of prices in the window)
    the resistance is looked for among the prices that have more than [e]
    smaller prices before them: when the window has no such price (a flat or
    falling window, for one), [_find_support_resistance] raises
    [ValueError]. *)
Theorem find_local_without_resistance :
  forall (y : list Q) (e : Z),
    (0 < e)%Z -> (e <= Z.of_nat (List.length y))%Z ->
    Forall (fun ix =>
              (Z.of_nat (Rules.times_smaller y (fst ix) (snd ix)) <= e)%Z)
      (Rules.enumerate y) ->
    Rules._find_support_resistance y e = Rules.Raises Rules.ValueError.
Proof.
  exact find_local_raises.
Qed.

Lemma find_local_without_resistance_witness :
  Rules._find_support_resistance [5; 4; 4; 3] 2
  = Rules.Raises Rules.ValueError.
Proof.
  apply (find_local_without_resistance [5; 4; 4; 3] 2).
  - reflexivity.
  - discriminate.
  - repeat constructor; discriminate.
Defined.

(** X17.  With [e] set, a window of [e] or [e + 1] prices always raises
    [ValueError]: a price at position [i] has at most [i] smaller prices
    before it, so none has more than [e]. *)
Theorem find_local_short_window :
  forall (y : list Q) (e : Z),
    (0 < e)%Z ->
    (e <= Z.of_nat (List.length y) <= e + 1)%Z ->
    Rules._find_support_resistance y e = Rules.Raises Rules.ValueError.
Proof.
  intros y e He [Hlo Hhi]. apply find_local_raises; [exact He | exact Hlo |].
  apply Forall_forall. intros [i x] Hin. simpl.
  pose proof (times_smaller_le y i x) as Hle.
  unfold Rules.enumerate in Hin. apply in_combine_l in Hin.
  apply in_seq in Hin. lia.
Qed.

Lemma find_local_short_window_witness :
  Rules._find_support_resistance [1; 2; 3] 2 = Rules.Raises Rules.ValueError.
Proof.
  apply (find_local_short_window [1; 2; 3] 2).
  - reflexivity.
  - split; discriminate.
Defined.

(* ================================================================= *)
(** ** The affordability formula and the fee, as functions of the money *)



(** X19.  With a fee rate that is not negative, a larger transaction never
    pays a smaller fee: [calculate_fee] is monotone in the transaction
    value. *)
Theorem calculate_fee_monotone :
  forall (self : PositionSize.sizer) (v v' : Q),
    0 <= PositionSize.fee_perc self ->
    v <= v' ->
    PositionSize.calculate_fee self v <= PositionSize.calculate_fee self v'.
Proof.
  intros self v v' Hfp Hv. unfold PositionSize.calculate_fee.
  apply round2_mono.
  assert (H : v * PositionSize.fee_perc self <= v' * PositionSize.fee_perc self)
    by (apply Qmult_le_compat_r; assumption).
  destruct (Qlt_le_dec (v * PositionSize.fee_perc self)
              (PositionSize.min_fee self));
    destruct (Qlt_le_dec (v' * PositionSize.fee_perc self)
                (PositionSize.min_fee self)); lra.
Qed.

Lemma calculate_fee_monotone_witness :
  PositionSize.calculate_fee
    (default_sizer "alphabetically" (1 # 10) (1 # 100)) 984
  <= PositionSize.calculate_fee
       (default_sizer "alphabetically" (1 # 10) (1 # 100)) 9888.
Proof.
  apply (calculate_fee_monotone
           (default_sizer "alphabetically" (1 # 10) (1 # 100)) 984 9888);
    discriminate.
Defined.

(* ================================================================= *)
(** ** The fills of the engine *)

Lemma buying_loop_picked (self : Backtester.backtester)
    (cs : list Backtester.candidate) :
  forall m acc m' out,
    Backtester.buying_loop self (m, acc) cs = Ok (m', out) ->
    exists new, out = acc ++ new /\ picked (engine_fill_of self) cs new.
Proof.
  induction cs as [| c rest IH]; intros m acc m' out H; simpl in H.
  - injection H as <- <-. exists []. rewrite app_nil_r. split; constructor.
  - destruct (floordiv m _) as [n | e]; cbn [bind] in H; [| discriminate].
    destruct (Z.eqb_spec n 0) as [Hz | Hnz].
    + apply IH in H. destruct H as (new & -> & Hp).
      exists new. split; [reflexivity | apply picked_skip; exact Hp].
    + apply IH in H. destruct H as (new & -> & Hp).
      eexists. rewrite <- app_assoc. split; [reflexivity |].
      apply picked_take; [| exact Hp]. split; [exact Hnz | reflexivity].
Qed.

(** X20.  [buying_decisions] leaves the state of the back-tester as it is,
    and each fill it returns answers one of the candidates, in their order
    and at most one per candidate, with that candidate's symbol, entry type
    and price, a share count that is not zero,
    [trx_value = shares_count * price] and [fee = calculate_fee(trx_value)]. *)
Theorem buying_decisions_fills :
  forall (self : Backtester.backtester)
         (candidates : list Backtester.candidate)
         (st st' : Backtester.state) (fills : list Backtester.fill),
    Backtester.buying_decisions self candidates st = (Ok fills, st') ->
    st' = st /\ picked (engine_fill_of self) candidates fills.
Proof.
  intros self candidates st st' fills H.
  unfold Backtester.buying_decisions, Backtester.bindM, Backtester.get,
    Backtester.lift in H.
  destruct (Backtester.buying_loop self _ candidates) as [[m' out] | e] eqn:Hl;
    simpl in H; [| discriminate].
  injection H as <- <-. split; [reflexivity |].
  apply buying_loop_picked in Hl. destruct Hl as (new & -> & Hp). exact Hp.
Qed.

Lemma buying_decisions_fills_witness :
  let c := {| Backtester.symbol := "TEST_SIGS_1";
              Backtester.entry_type := long;
              Backtester.price := 100 |} in
  let st := Backtester.set_available_money 500 empty_state in
  exists fills,
    Backtester.buying_decisions scenario [c] st = (Ok fills, st)
    /\ map Backtester.shares_count fills = [4%Z]
    /\ picked (engine_fill_of scenario) [c] fills.
Proof.
  cbv zeta.
  destruct (Backtester.buying_decisions scenario
              [{| Backtester.symbol := "TEST_SIGS_1";
                  Backtester.entry_type := long;
                  Backtester.price := 100 |}]
              (Backtester.set_available_money 500 empty_state))
    as [[fills | e] st'] eqn:H.
  - destruct (buying_decisions_fills _ _ _ _ _ H) as [-> Hp].
    exists fills. split; [reflexivity |]. split; [| exact Hp].
    vm_compute in H. injection H as <-. reflexivity.
  - vm_compute in H. discriminate.
Defined.

(* ================================================================= *)
(** ** [test_days] *)

Lemma for_each_app_ok {A} (body : A -> Backtester.M unit) (l1 l2 : list A) :
  forall st st',
    Backtester.for_each body (l1 ++ l2) st = (Ok tt, st') ->
    exists st1,
      Backtester.for_each body l1 st = (Ok tt, st1)
      /\ Backtester.for_each body l2 st1 = (Ok tt, st').
Proof.
  induction l1 as [| x l1 IH]; intros st st' H; simpl in H.
  - exists st. split; [reflexivity | exact H].
  - apply for_each_ok_cons in H. destruct H as (st0 & Hx & Hrest).
    apply IH in Hrest. destruct Hrest as (st1 & H1 & H2).
    exists st1. split; [| exact H2].
    simpl. unfold Backtester.bindM. rewrite Hx. exact H1.
Qed.

Lemma day_loop_extends (self : Backtester.backtester)
    (symbols_in_day : dict (list string))
    (days : list Backtester.Timestamp) :
  forall (K : list string) (st st' : Backtester.state),
    Backtester.for_each (Backtester.day self symbols_in_day) days st
      = (Ok tt, st') ->
    dict_keys (Backtester._account_value st) = K ->
    dict_keys (Backtester._net_account_value st) = K ->
    dict_keys (Backtester._rate_of_return st) = K ->
    NoDup (K ++ days) ->
    exists xa xn xr,
      Backtester._account_value st' = Backtester._account_value st ++ xa
      /\ Backtester._net_account_value st'
         = Backtester._net_account_value st ++ xn
      /\ Backtester._rate_of_return st' = Backtester._rate_of_return st ++ xr
      /\ dict_keys xa = days /\ dict_keys xn = days /\ dict_keys xr = days.
Proof.
  induction days as [| d days IH]; intros K st st' H Hav Hnav Hror Hnd.
  - injection H as <-. exists [], [], []. rewrite !app_nil_r. auto 10.
  - apply for_each_ok_cons in H. destruct H as (st1 & Hday & Hrest).
    apply day_ok in Hday.
    destruct Hday as (st0 & a & (Ea & En & Er) & _ & _ & ->).
    assert (Hfresh : ~ In d K).
    { apply NoDup_remove_2 in Hnd. rewrite in_app_iff in Hnd. tauto. }
    assert (Hga : dict_get d (Backtester._account_value st) = None)
      by (apply dict_get_none; rewrite Hav; exact Hfresh).
    assert (Hgn : dict_get d (Backtester._net_account_value st) = None)
      by (apply dict_get_none; rewrite Hnav; exact Hfresh).
    assert (Hgr : dict_get d (Backtester._rate_of_return st) = None)
      by (apply dict_get_none; rewrite Hror; exact Hfresh).
    replace (K ++ d :: days) with ((K ++ [d]) ++ days) in Hnd
      by (rewrite <- app_assoc; reflexivity).
    apply (IH (K ++ [d])) in Hrest; [| | | | exact Hnd].
    + destruct Hrest as (xa & xn & xr & Ha & Hn & Hr & Ka & Kn & Kr).
      unfold after_summary in Ha, Hn, Hr.
      cbn [Backtester._account_value Backtester._net_account_value
             Backtester._rate_of_return] in Ha, Hn, Hr.
      rewrite Ea, dict_set_fresh in Ha by exact Hga.
      rewrite En, dict_set_fresh in Hn by exact Hgn.
      rewrite Er, dict_set_fresh in Hr by exact Hgr.
      rewrite <- app_assoc in Ha, Hn, Hr.
      eexists. eexists. eexists.
      split; [exact Ha |]. split; [exact Hn |]. split; [exact Hr |].
      unfold dict_keys in *. simpl. rewrite Ka, Kn, Kr. auto.
    + unfold after_summary.
      cbn [Backtester._account_value]. rewrite Ea.
      rewrite dict_keys_set_fresh by exact Hga. rewrite Hav. reflexivity.
    + unfold after_summary.
      cbn [Backtester._net_account_value]. rewrite En.
      rewrite dict_keys_set_fresh by exact Hgn. rewrite Hnav. reflexivity.
    + unfold after_summary.
      cbn [Backtester._rate_of_return]. rewrite Er.
      rewrite dict_keys_set_fresh by exact Hgr. rewrite Hror. reflexivity.
Qed.

Lemma rows_app (av nav ror xa xn xr : list (string * Q)) :
  dict_keys nav = dict_keys av -> dict_keys ror = dict_keys av ->
  Backtester.rows (av ++ xa) (nav ++ xn) (ror ++ xr)
  = Backtester.rows av nav ror ++ Backtester.rows xa xn xr.
Proof.
  revert nav ror.
  induction av as [| [d a] av IH]; intros [| [d1 n] nav] [| [d2 r] ror];
    simpl; try discriminate; try reflexivity.
  intros [= _ H1] [= _ H2]. f_equal. apply IH; assumption.
Qed.

Lemma run_returns (self : Backtester.backtester) (test_days : option Z)
    (st st' : Backtester.state) (sid : dict (list string)) :
  Backtester.collect_days self (Backtester.signals self) [] = Ok sid ->
  Backtester.for_each (Backtester.day self sid)
    (simulated_days test_days (stable_sort String.leb (dict_keys sid)))
    (reset_state self) = (Ok tt, st') ->
  fst (Backtester.run self test_days st)
  = Ok (Backtester._run_output st', Backtester._trades st').
Proof.
  intros Hsid Hloop.
  unfold Backtester.run, Backtester.bindM at 1.
  unfold Backtester._reset_backtest_state, Backtester.modify.
  fold (reset_state self).
  unfold Backtester.bindM at 1, Backtester.lift. rewrite Hsid.
  cbv zeta. unfold Backtester.bindM at 1.
  change (match test_days with
          | Some n =>
              if (n =? 0)%Z
              then stable_sort String.leb (dict_keys sid)
              else Backtester.slice_to n
                     (stable_sort String.leb (dict_keys sid))
          | None => stable_sort String.leb (dict_keys sid)
          end)
    with (simulated_days test_days (stable_sort String.leb (dict_keys sid))).
  rewrite Hloop. reflexivity.
Qed.

(** X21.  [test_days] cuts the run to a prefix: when the run over the
    whole calendar returns, the run with [test_days = n > 0] returns too,
    and its valuation series is the first [n] rows of the whole series. *)
Theorem run_test_days_is_prefix :
  forall (self : Backtester.backtester) (n : Z) (st st2 : Backtester.state)
         (series : list Backtester.row) (trades : dict Backtester.trade),
    (0 < n)%Z ->
    fst (Backtester.run self None st) = Ok (series, trades) ->
    exists trades_n,
      fst (Backtester.run self (Some n) st2)
      = Ok (firstn (Z.to_nat n) series, trades_n).
Proof.
  intros self n st st2 series trades Hn H.
  apply run_ok in H. destruct H as (sid & st_full & Hsid & Hloop & -> & _).
  pose proof (collect_days_keys self _ _ _ Hsid) as [Hnd _].
  specialize (Hnd (NoDup_nil _)).
  set (days := stable_sort String.leb (dict_keys sid)) in *.
  assert (Hdays_nd : NoDup days)
    by (eapply Permutation_NoDup; [apply stable_sort_perm | exact Hnd]).
  set (k := Z.to_nat n).
  assert (Hsim : simulated_days (Some n) days = firstn k days).
  { unfold simulated_days, Backtester.slice_to.
    destruct (Z.eqb_spec n 0); [lia |].
    destruct (Z.leb_spec 0 n); [reflexivity | lia]. }
  cbn [simulated_days] in Hloop.
  rewrite <- (firstn_skipn k days) in Hloop, Hdays_nd.
  apply for_each_app_ok in Hloop. destruct Hloop as (st_n & H1 & H2).
  exists (Backtester._trades st_n).
  rewrite (run_returns self (Some n) st2 st_n sid Hsid)
    by (fold days; rewrite Hsim; exact H1).
  f_equal. f_equal.
  pose proof (day_loop_series self sid _ [] _ _ H1 eq_refl eq_refl eq_refl
                (NoDup_app_remove_r _ _ Hdays_nd)) as (Ka & Kn & Kr).
  simpl in Ka, Kn, Kr.
  pose proof (day_loop_extends self sid _ (firstn k days) _ _ H2 Ka Kn Kr
                Hdays_nd) as (xa & xn & xr & Ea & En & Er & Xa & Xn & Xr).
  unfold Backtester._run_output. rewrite Ea, En, Er.
  rewrite rows_app by congruence.
  set (A := Backtester.rows (Backtester._account_value st_n)
              (Backtester._net_account_value st_n)
              (Backtester._rate_of_return st_n)).
  assert (HlenA : List.length A = List.length (firstn k days)).
  { unfold A. rewrite <- Ka.
    rewrite <- (rows_days _ (Backtester._net_account_value st_n)
                  (Backtester._rate_of_return st_n)) by congruence.
    rewrite length_map. reflexivity. }
  rewrite firstn_app, (firstn_all2 A)
    by (rewrite HlenA; apply firstn_le_length).
  destruct (Nat.le_gt_cases k (List.length days)) as [Hle | Hgt].
  - rewrite HlenA, length_firstn, Nat.min_l by exact Hle.
    rewrite Nat.sub_diag. simpl. rewrite app_nil_r. reflexivity.
  - assert (Hx : xa = []).
    { rewrite skipn_all2 in Xa by lia. destruct xa; [reflexivity | discriminate]. }
    subst xa. simpl. rewrite firstn_nil, app_nil_r. reflexivity.
Qed.

Lemma run_test_days_is_prefix_witness :
  exists series trades trades_n,
    fst (Backtester.run scenario None empty_state) = Ok (series, trades)
    /\ fst (Backtester.run scenario (Some 2%Z) empty_state)
       = Ok (firstn 2 series, trades_n).
Proof.
  destruct (fst (Backtester.run scenario None empty_state))
    as [[series trades] | e] eqn:Hr.
  - destruct (run_test_days_is_prefix scenario 2 empty_state empty_state
                series trades eq_refl Hr) as (trades_n & Hn).
    exists series, trades, trades_n. split; [reflexivity | exact Hn].
  - vm_compute in Hr. discriminate.
Defined.

(* ================================================================= *)
(** ** Re-entry *)

(** X22.  [_buy] does not add to a position: a buy for a symbol that is
    already held replaces its holding by the shares of the new fill (the
    count held before is dropped) and refers it to the new trade; the other
    holdings, and the set of symbols held, are as before. *)
Theorem buy_replaces_holding :
  forall (trx : Backtester.fill) (ds : Backtester.Timestamp)
         (st : Backtester.state) (h : Backtester.holding),
    dict_get (Backtester.f_symbol trx) (Backtester._owned_shares st) = Some h ->
    let st' := snd (Backtester._buy trx ds st) in
    dict_get (Backtester.f_symbol trx) (Backtester._owned_shares st')
    = Some {| Backtester.cnt := held_count trx;
              Backtester.trx_id := trade_id ds trx |}
    /\ dict_keys (Backtester._owned_shares st')
       = dict_keys (Backtester._owned_shares st)
    /\ forall other,
         other <> Backtester.f_symbol trx ->
         dict_get other (Backtester._owned_shares st')
         = dict_get other (Backtester._owned_shares st).
Proof.
  intros trx ds st h Hheld. cbv zeta. rewrite buy_runs.
  cbn [snd Backtester._owned_shares]. split; [apply dict_get_set_same |].
  split.
  - apply dict_keys_set_present. rewrite Hheld. discriminate.
  - intros other Hne. apply dict_get_set_other. exact Hne.
Qed.

Lemma buy_replaces_holding_witness :
  let trx := {| Backtester.f_symbol := "A";
                Backtester.f_entry_type := long;
                Backtester.shares_count := 1;
                Backtester.f_price := 100;
                Backtester.trx_value := 100;
                Backtester.fee := 4 |} in
  let st := Backtester.set_owned_shares
              [("A"%string, {| Backtester.cnt := 4;
                               Backtester.trx_id := "2020-01-01_A_long" |})]
              empty_state in
  dict_get "A"
    (Backtester._owned_shares
       (snd (Backtester._buy trx "2020-01-02 00:00:00"%string st)))
  = Some {| Backtester.cnt := 1; Backtester.trx_id := "2020-01-02_A_long" |}.
Proof.
  cbv zeta.
  exact (proj1 (buy_replaces_holding
                  {| Backtester.f_symbol := "A";
                     Backtester.f_entry_type := long;
                     Backtester.shares_count := 1;
                     Backtester.f_price := 100;
                     Backtester.trx_value := 100;
                     Backtester.fee := 4 |}
                  "2020-01-02 00:00:00"%string
                  (Backtester.set_owned_shares
                     [("A"%string,
                       {| Backtester.cnt := 4;
                          Backtester.trx_id := "2020-01-01_A_long" |})]
                     empty_state)
                  _ eq_refl)).
Defined.
